(** * Employee CRUD backend: validators, handlers and document store

    A shallow embedding of [backend_flask]: the validation module
    ([utils/validators.py]), the authentication handlers
    ([routes/auth.py]) and the employee handlers ([routes/employee.py]),
    over an explicit model of the two MongoDB collections.

    Conventions.
    - A Python [str] is a [string] whose characters are read as the code
      points 0..255; all regular expressions of the program use explicit
      ASCII classes, so they are exact on that range.
    - A handler is a function from the database and the request to an
      [outcome] (a response or a raised exception) and the new database.
      The request body is the [dict] that [request.get_json()] returns,
      an association list read at its first binding of a key; the
      employee handlers run past [@jwt_required()], with the identity of
      the verified token as [user_id].
    - What the store or a library chooses (a fresh [_id], the bcrypt salt,
      the signed token) is an explicit argument. *)

From Stdlib Require Import List String Ascii ZArith QArith Bool Arith Lia.
Import ListNotations.
Open Scope string_scope.
Open Scope list_scope.

(** ** Characters *)

Module Chars.

Definition code (c : ascii) : nat := nat_of_ascii c.

Definition in_range (lo hi : ascii) (c : ascii) : bool :=
  (code lo <=? code c)%nat && (code c <=? code hi)%nat.

Definition is_lower (c : ascii) : bool := in_range "a" "z" c.
Definition is_upper (c : ascii) : bool := in_range "A" "Z" c.
Definition is_digit (c : ascii) : bool := in_range "0" "9" c.
Definition is_letter (c : ascii) : bool := is_lower c || is_upper c.

(** [[a-zA-Z0-9]] *)
Definition is_alnum (c : ascii) : bool := is_letter c || is_digit c.

(** [[a-zA-Z0-9._%+-]] *)
Definition is_local_char (c : ascii) : bool :=
  is_alnum c
  || Ascii.eqb c "." || Ascii.eqb c "_" || Ascii.eqb c "%"
  || Ascii.eqb c "+" || Ascii.eqb c "-".

(** [[A-Za-z ]] *)
Definition is_name_char (c : ascii) : bool :=
  is_upper c || is_lower c || Ascii.eqb c " ".

(** [.] without DOTALL: anything but a line feed. *)
Definition is_not_newline (c : ascii) : bool := negb (Ascii.eqb c "010").

(** [str.isspace] on the code points below 256: TAB..CR, FS..US, SPACE,
    NEL (0x85) and NBSP (0xA0). *)
Definition is_space (c : ascii) : bool :=
  let n := code c in
  ((9 <=? n) && (n <=? 13) || (28 <=? n) && (n <=? 32)
   || (n =? 133) || (n =? 160))%nat.

(** C's [isspace] on ASCII ([Py_ISSPACE]): TAB..CR and SPACE. *)
Definition is_c_space (c : ascii) : bool :=
  let n := code c in
  ((9 <=? n) && (n <=? 13) || (n =? 32))%nat.

(** What [int] skips around a literal: [Py_ISSPACE], and the blanks
    above ASCII, NEL (0x85) and NBSP (0xA0), which are turned into spaces
    before the literal is read; FS..US are not skipped. *)
Definition is_int_space (c : ascii) : bool :=
  let n := code c in
  is_c_space c || ((n =? 133) || (n =? 160))%nat.

Definition is_hex (c : ascii) : bool :=
  is_digit c || in_range "a" "f" c || in_range "A" "F" c.

Definition to_lower (c : ascii) : ascii :=
  if is_upper c then ascii_of_nat (code c + 32) else c.

End Chars.

(** ** Regular expressions

    The fragment of Python's [re] that the validators use: character
    classes, concatenation, alternation, iteration and bounded repetition,
    matched with derivatives.  [re.fullmatch] is [fullmatch]; a negative
    lookahead at the start of a pattern is [lookahead] negated. *)

Module Re.

Inductive regex : Type :=
| Void : regex
| Eps : regex
| Class : (ascii -> bool) -> regex
| Cat : regex -> regex -> regex
| Alt : regex -> regex -> regex
| Star : regex -> regex.

Fixpoint nullable (r : regex) : bool :=
  match r with
  | Void => false
  | Eps => true
  | Class _ => false
  | Cat a b => nullable a && nullable b
  | Alt a b => nullable a || nullable b
  | Star _ => true
  end.

Fixpoint deriv (c : ascii) (r : regex) : regex :=
  match r with
  | Void => Void
  | Eps => Void
  | Class p => if p c then Eps else Void
  | Cat a b =>
      if nullable a then Alt (Cat (deriv c a) b) (deriv c b)
      else Cat (deriv c a) b
  | Alt a b => Alt (deriv c a) (deriv c b)
  | Star a => Cat (deriv c a) (Star a)
  end.

(** The whole input is consumed. *)
Fixpoint fullmatch (r : regex) (s : list ascii) : bool :=
  match s with
  | [] => nullable r
  | c :: s' => fullmatch (deriv c r) s'
  end.

(** Some prefix of the input matches: what a lookahead tests. *)
Fixpoint lookahead (r : regex) (s : list ascii) : bool :=
  nullable r ||
  match s with
  | [] => false
  | c :: s' => lookahead (deriv c r) s'
  end.

(** A literal character and a literal string. *)
Definition chr (c : ascii) : regex := Class (Ascii.eqb c).

Fixpoint lit (s : list ascii) : regex :=
  match s with
  | [] => Eps
  | c :: s' => Cat (chr c) (lit s')
  end.

(** [r{0,extra}] *)
Fixpoint upto (r : regex) (extra : nat) : regex :=
  match extra with
  | S extra' => Alt Eps (Cat r (upto r extra'))
  | O => Eps
  end.

(** [r{lo,lo+extra}] *)
Fixpoint rep (r : regex) (lo extra : nat) : regex :=
  match lo with
  | S lo' => Cat r (rep r lo' extra)
  | O => upto r extra
  end.

(** Denotation, for the proofs. *)
Inductive Matches : regex -> list ascii -> Prop :=
| MEps : Matches Eps []
| MClass p c : p c = true -> Matches (Class p) [c]
| MCat a b s t : Matches a s -> Matches b t -> Matches (Cat a b) (s ++ t)
| MAltL a b s : Matches a s -> Matches (Alt a b) s
| MAltR a b s : Matches b s -> Matches (Alt a b) s
| MStar0 a : Matches (Star a) []
| MStarS a s t :
    s <> [] -> Matches a s -> Matches (Star a) t -> Matches (Star a) (s ++ t).

End Re.

(** ** Python values *)

Definition chars (s : string) : list ascii := list_ascii_of_string s.
Definition text (l : list ascii) : string := string_of_list_ascii l.

Definition bytes : Type := list Byte.byte.

(** A decoded JSON number with a fraction or an exponent: a Python
    [float], as the rational it denotes, or one of the non-finite values
    that [json.loads] accepts. *)
Inductive pyfloat : Type :=
| FFinite (q : Q)
| FInf (negative : bool)
| FNan.

Set Warnings "-register-all".

(** What [request.get_json()] can hold. *)
Inductive json : Type :=
| JNull
| JBool (b : bool)
| JInt (z : Z)
| JFloat (f : pyfloat)
| JStr (s : string)
| JArr (l : list json)
| JObj (l : list (string * json)).

Definition dict : Type := list (string * json).

Inductive exn : Type :=
| AttributeError
| TypeError
| ValueError
| OverflowError
| InvalidId
| InvalidDocument
| OperationFailure.

(** A Flask view either returns a status and a JSON body or raises. *)
Inductive outcome : Type :=
| Resp (status : nat) (body : json)
| Raise (e : exn).

(** Early exit: [Stop] is a [return] or a [raise] inside the view. *)
Inductive flow (A : Type) : Type :=
| Go (a : A)
| Stop (o : outcome).
Arguments Go {A} a.
Arguments Stop {A} o.

Definition bind {A B : Type} (m : flow A) (k : A -> flow B) : flow B :=
  match m with
  | Go a => k a
  | Stop o => Stop o
  end.

Notation "x <- m ;; k" := (bind m (fun x => k))
  (at level 61, m at next level, right associativity).
Notation "m ;;; k" := (bind m (fun _ => k))
  (at level 61, right associativity).

(** [if not b: return o] *)
Definition unless (b : bool) (o : outcome) : flow unit :=
  if b then Go tt else Stop o.

(** [jsonify({"error": msg}), status] and [jsonify({"message": msg}), status] *)
Definition error (status : nat) (msg : string) : outcome :=
  Resp status (JObj [("error", JStr msg)]).
Definition message (status : nat) (msg : string) : outcome :=
  Resp status (JObj [("message", JStr msg)]).

(** [dict.get(key)]: [None] is [JNull]. *)
Fixpoint lookup (key : string) (d : dict) : option json :=
  match d with
  | [] => None
  | (k, v) :: d' => if String.eqb k key then Some v else lookup key d'
  end.

Definition get (d : dict) (key : string) : json :=
  match lookup key d with Some v => v | None => JNull end.

(** [dict.get(key, default)] *)
Definition get_default (d : dict) (key : string) (default : json) : json :=
  match lookup key d with Some v => v | None => default end.

(** Truth value of a Python object, as [not x] tests it. *)
Definition truthy (v : json) : bool :=
  match v with
  | JNull => false
  | JBool b => b
  | JInt z => negb (z =? 0)%Z
  | JFloat (FFinite q) => negb (Qnum q =? 0)%Z
  | JFloat _ => true
  | JStr s => negb (String.eqb s "")
  | JArr l => match l with [] => false | _ => true end
  | JObj l => match l with [] => false | _ => true end
  end.

(** [len(x)]; numbers, booleans and [None] have no length. *)
Definition py_len (v : json) : flow nat :=
  match v with
  | JStr s => Go (String.length s)
  | JArr l => Go (List.length l)
  | JObj l => Go (List.length l)
  | _ => Stop (Raise TypeError)
  end.

Fixpoint lstrip (l : list ascii) : list ascii :=
  match l with
  | c :: l' => if Chars.is_space c then lstrip l' else l
  | [] => []
  end.

Definition rstrip (l : list ascii) : list ascii := rev (lstrip (rev l)).

(** [str.strip()] *)
Definition strip (s : string) : string := text (rstrip (lstrip (chars s))).

(** [x.strip()] on a JSON value: only a [str] has the method. *)
Definition py_strip (v : json) : flow string :=
  match v with
  | JStr s => Go (strip s)
  | _ => Stop (Raise AttributeError)
  end.

(** [str.encode()]: UTF-8 of the code points below 256. *)
Definition byte_of_nat (n : nat) : Byte.byte := byte_of_ascii (ascii_of_nat n).

Definition encode_char (c : ascii) : bytes :=
  let n := Chars.code c in
  if (n <? 128)%nat then [byte_of_nat n]
  else [byte_of_nat (192 + n / 64); byte_of_nat (128 + n mod 64)].

Definition encode (s : string) : bytes := flat_map encode_char (chars s).

(** ** [int(x)] *)

Definition digit_value (c : ascii) : Z := Z.of_nat (Chars.code c - 48).

(** The digits of a decimal literal, single underscores between digits
    dropped; [None] when the literal is malformed. *)
Fixpoint scan_digits (l : list ascii) (after_digit : bool) : option (list ascii) :=
  match l with
  | [] => if after_digit then Some [] else None
  | c :: l' =>
      if Chars.is_digit c then option_map (cons c) (scan_digits l' true)
      else if Ascii.eqb c "_" then
        (if after_digit then scan_digits l' false else None)
      else None
  end.

Definition decimal_value (ds : list ascii) : Z :=
  fold_left (fun acc c => (10 * acc + digit_value c)%Z) ds 0%Z.

(** CPython's default [sys.int_max_str_digits]. *)
Definition int_max_str_digits : nat := 4300.

Definition parse_unsigned (l : list ascii) : option Z :=
  match scan_digits l false with
  | Some ds =>
      if (List.length ds <=? int_max_str_digits)%nat
      then Some (decimal_value ds) else None
  | None => None
  end.

(** Leading, and trailing, characters of a class dropped. *)
Fixpoint lskip (blank : ascii -> bool) (l : list ascii) : list ascii :=
  match l with
  | c :: l' => if blank c then lskip blank l' else l
  | [] => []
  end.

Definition rskip (blank : ascii -> bool) (l : list ascii) : list ascii :=
  rev (lskip blank (rev l)).

(** [int(s)] for a [str]: the blanks [int] skips on both sides, an
    optional sign, a decimal literal. *)
Definition int_of_str (s : string) : option Z :=
  match rskip Chars.is_int_space (lskip Chars.is_int_space (chars s)) with
  | "-"%char :: l => option_map Z.opp (parse_unsigned l)
  | "+"%char :: l => parse_unsigned l
  | l => parse_unsigned l
  end.

(** [int(x)]; [None] is any exception ([TypeError], [ValueError],
    [OverflowError]). A float is truncated towards zero. *)
Definition py_int (v : json) : option Z :=
  match v with
  | JNull => None
  | JBool b => Some (if b then 1 else 0)%Z
  | JInt z => Some z
  | JFloat (FFinite q) => Some (Z.quot (Qnum q) (Zpos (Qden q)))
  | JFloat _ => None
  | JStr s => int_of_str s
  | JArr _ => None
  | JObj _ => None
  end.

(** ** utils/validators.py *)

(** [^(?!.*\.\.)[a-zA-Z0-9](?:[a-zA-Z0-9._%+-]{4,28})[a-zA-Z0-9]@gmail\.com$] *)
Definition email_lookahead : Re.regex :=
  Re.Cat (Re.Star (Re.Class Chars.is_not_newline)) (Re.lit (chars "..")).

Definition email_body : Re.regex :=
  Re.Cat (Re.Class Chars.is_alnum)
    (Re.Cat (Re.rep (Re.Class Chars.is_local_char) 4 24)
       (Re.Cat (Re.Class Chars.is_alnum) (Re.lit (chars "@gmail.com")))).

Definition validate_email_format (email : string) : bool :=
  negb (Re.lookahead email_lookahead (chars email))
  && Re.fullmatch email_body (chars email).

Definition validate_password (password : json) : flow bool :=
  n <- py_len password ;; Go (6 <=? n)%nat.

(** [[A-Za-z ]{2,50}] *)
Definition name_pattern : Re.regex := Re.rep (Re.Class Chars.is_name_char) 2 48.

Definition validate_name (name : string) : bool :=
  Re.fullmatch name_pattern (chars name).

Definition validate_text_field (value : string) : bool :=
  Re.fullmatch name_pattern (chars value).

Definition validate_salary (salary : json) : bool :=
  match py_int salary with
  | Some n => (0 <? n)%Z
  | None => false
  end.

(** ** The document store *)

(** A [bson.ObjectId], held in the form [str] prints it: 24 lower-case
    hexadecimal digits. *)
Definition ObjectId : Type := string.

Definition is_lower_hex (c : ascii) : bool :=
  Chars.is_digit c || Chars.in_range "a" "f" c.

Definition canonical (o : ObjectId) : bool :=
  (String.length o =? 24)%nat && forallb is_lower_hex (chars o).

(** [bytes.fromhex]: pairs of hexadecimal digits, in either case, with
    ASCII whitespace allowed before a pair and at the end; the digits read,
    or nothing when the text is refused. *)
Fixpoint fromhex (l : list ascii) : option (list ascii) :=
  match l with
  | [] => Some []
  | c :: l' =>
      if Chars.is_c_space c then fromhex l'
      else if Chars.is_hex c then
        match l' with
        | d :: l'' =>
            if Chars.is_hex d
            then option_map (fun ds => c :: d :: ds) (fromhex l'')
            else None
        | [] => None
        end
      else None
  end.

(** [ObjectId(id)] for a [str] taken from the URL: bson's constructor
    takes a text of 24 characters that [bytes.fromhex] reads, and raises
    [InvalidId] on anything else. The value is held as [str] prints it,
    the bytes in lower-case hexadecimal; it has 24 digits when the text had
    no whitespace and fewer otherwise. *)
Definition well_formed_id (id : string) : bool :=
  (String.length id =? 24)%nat &&
  match fromhex (chars id) with Some _ => true | None => false end.

Definition ObjectId_of (id : string) : flow ObjectId :=
  if (String.length id =? 24)%nat then
    match fromhex (chars id) with
    | Some ds => Go (text (map Chars.to_lower ds))
    | None => Stop (Raise InvalidId)
    end
  else Stop (Raise InvalidId).

(** ** What BSON can hold *)

(** An integer of at most 8 bytes. *)
Definition int64 (n : Z) : bool :=
  ((- 2 ^ 63 <=? n) && (n <=? 2 ^ 63 - 1))%Z.

(** Encoding an integer field: the driver raises [OverflowError] beyond
    8 bytes, before anything is sent to the store. *)
Definition bson_int (n : Z) : flow unit :=
  if int64 n then Go tt else Stop (Raise OverflowError).

(** Encoding a decoded JSON value: what the driver raises, if anything.
    Integers beyond 8 bytes and keys with a NUL character are refused. *)
Fixpoint bson_error (v : json) : option exn :=
  match v with
  | JInt z => if int64 z then None else Some OverflowError
  | JArr l =>
      fold_right
        (fun (x : json) (rest : option exn) =>
           match bson_error x with Some e => Some e | None => rest end)
        None l
  | JObj l =>
      fold_right
        (fun (kv : string * json) (rest : option exn) =>
           let (k, x) := kv in
           if existsb (Ascii.eqb "000") (chars k) then Some InvalidDocument
           else match bson_error x with Some e => Some e | None => rest end)
        None l
  | _ => None
  end.

Definition bson_value (v : json) : flow unit :=
  match bson_error v with
  | Some e => Stop (Raise e)
  | None => Go tt
  end.

(** A document of [users], as [register] inserts it. *)
Record user : Type := User {
  u_id : ObjectId;
  u_name : json;
  u_email : string;
  u_password : bytes
}.

(** A document of [employees], as [create_employee] inserts it. *)
Record employee : Type := Employee {
  e_id : ObjectId;
  e_name : string;
  e_email : string;
  e_department : string;
  e_designation : string;
  e_salary : Z;
  e_createdBy : string
}.

(** [mongo.db]: each collection in its natural order. *)
Record DB : Type := Db {
  users : list user;
  employees : list employee
}.

Section Collection.
Context {A : Type}.

(** [find_one(filter)] *)
Definition find_one (filter : A -> bool) (coll : list A) : option A :=
  List.find filter coll.

(** [find(filter)] *)
Definition find_all (filter : A -> bool) (coll : list A) : list A :=
  List.filter filter coll.

(** [insert_one(doc)] *)
Definition insert_one (doc : A) (coll : list A) : list A := coll ++ [doc].

(** [update_one(filter, {"$set": ...})]: the first match is rewritten;
    the result carries [matched_count]. *)
Fixpoint update_one (filter : A -> bool) (set : A -> A) (coll : list A)
  : nat * list A :=
  match coll with
  | [] => (0%nat, [])
  | d :: coll' =>
      if filter d then (1%nat, set d :: coll')
      else let (n, rest) := update_one filter set coll' in (n, d :: rest)
  end.

(** [delete_one(filter)]: the first match is removed; the result carries
    [deleted_count]. *)
Fixpoint delete_one (filter : A -> bool) (coll : list A) : nat * list A :=
  match coll with
  | [] => (0%nat, [])
  | d :: coll' =>
      if filter d then (1%nat, coll')
      else let (n, rest) := delete_one filter coll' in (n, d :: rest)
  end.
End Collection.

(** ** The handlers *)

(** [if doc:] on the result of [find_one]: a document is true, [None]
    is not. *)
Definition found {A : Type} (doc : option A) : bool :=
  match doc with
  | Some _ => true
  | None => false
  end.

(** The request body fields of an employee, after [.strip()]. *)
Record fields : Type := Fields {
  f_name : string;
  f_email : string;
  f_department : string;
  f_designation : string;
  f_salary : json
}.

(** [data.get(key, "").strip()] *)
Definition get_stripped (data : dict) (key : string) : flow string :=
  py_strip (get_default data key (JStr "")).

(** The extraction and validation block that [create_employee] and
    [update_employee] share line for line. *)
Definition read_fields (data : dict) : flow fields :=
  name <- get_stripped data "name" ;;
  email <- get_stripped data "email" ;;
  department <- get_stripped data "department" ;;
  designation <- get_stripped data "designation" ;;
  Go (Fields name email department designation (get data "salary")).

Definition validate_fields (f : fields) : flow unit :=
  unless (validate_name (f_name f)) (error 400 "Invalid Name") ;;;
  unless (validate_email_format (f_email f)) (error 400 "Invalid Email") ;;;
  unless (validate_text_field (f_department f)) (error 400 "Invalid Department") ;;;
  unless (validate_text_field (f_designation f)) (error 400 "Invalid Role") ;;;
  unless (validate_salary (f_salary f)) (error 400 "Invalid Salary").

(** [int(salary)] where the document is built. *)
Definition int_salary (salary : json) : flow Z :=
  match py_int salary with
  | Some n => Go n
  | None => Stop (Raise TypeError)
  end.

(** [{"email": email, "createdBy": user_id}] *)
Definition same_email (email user_id : string) (e : employee) : bool :=
  String.eqb (e_email e) email && String.eqb (e_createdBy e) user_id.

(** [{"email": email, "createdBy": user_id, "_id": {"$ne": oid}}] *)
Definition other_with_email (email user_id : string) (oid : ObjectId)
  (e : employee) : bool :=
  same_email email user_id e && negb (String.eqb (e_id e) oid).

(** [{"_id": oid, "createdBy": user_id}] *)
Definition owned (oid : ObjectId) (user_id : string) (e : employee) : bool :=
  String.eqb (e_id e) oid && String.eqb (e_createdBy e) user_id.

(** [{"createdBy": user_id}] *)
Definition created_by (user_id : string) (e : employee) : bool :=
  String.eqb (e_createdBy e) user_id.

Definition set_employees (db : DB) (coll : list employee) : DB :=
  Db (users db) coll.

Definition set_users (db : DB) (coll : list user) : DB :=
  Db coll (employees db).

(** [POST /api/employees], past [@jwt_required()]: [user_id] is the
    identity of the verified token, [new_id] the [_id] the store gives the
    inserted document. [insert_one] encodes the document first, and
    writes nothing when the salary does not fit. *)
Definition create_employee (db : DB) (user_id : string) (data : dict)
  (new_id : ObjectId) : outcome * DB :=
  match
    f <- read_fields data ;;
    validate_fields f ;;;
    unless (negb (found (find_one (same_email (f_email f) user_id) (employees db))))
      (error 400 "Email already exists") ;;;
    n <- int_salary (f_salary f) ;;
    bson_int n ;;;
    Go (Employee new_id (f_name f) (f_email f) (f_department f)
          (f_designation f) n user_id)
  with
  | Stop o => (o, db)
  | Go doc =>
      (message 201 "Employee Added",
       set_employees db (insert_one doc (employees db)))
  end.

(** A document as [jsonify] sends it, [_id] as a string. *)
Definition employee_json (e : employee) : json :=
  JObj [("_id", JStr (e_id e));
        ("name", JStr (e_name e));
        ("email", JStr (e_email e));
        ("department", JStr (e_department e));
        ("designation", JStr (e_designation e));
        ("salary", JInt (e_salary e));
        ("createdBy", JStr (e_createdBy e))].

(** [GET /api/employees] *)
Definition get_employees (db : DB) (user_id : string) : outcome :=
  Resp 200 (JArr (map employee_json
                    (find_all (created_by user_id) (employees db)))).

(** The [$set] document of [update_employee]. *)
Definition set_fields (f : fields) (n : Z) (e : employee) : employee :=
  Employee (e_id e) (f_name f) (f_email f) (f_department f)
    (f_designation f) n (e_createdBy e).

(** [PUT /api/employees/<id>]. [update_one] encodes the filter and the
    [$set] document first, and asks the store nothing when the salary does
    not fit. *)
Definition update_employee (db : DB) (user_id : string) (id : string)
  (data : dict) : outcome * DB :=
  match
    f <- read_fields data ;;
    validate_fields f ;;;
    other <- ObjectId_of id ;;
    unless (negb (found (find_one (other_with_email (f_email f) user_id other)
                       (employees db))))
      (error 400 "Email already exists") ;;;
    oid <- ObjectId_of id ;;
    n <- int_salary (f_salary f) ;;
    bson_int n ;;;
    Go (update_one (owned oid user_id) (set_fields f n) (employees db))
  with
  | Stop o => (o, db)
  | Go (matched_count, coll) =>
      if (matched_count =? 0)%nat
      then (error 403 "Not authorized", set_employees db coll)
      else (message 200 "Updated", set_employees db coll)
  end.

(** [DELETE /api/employees/<id>] *)
Definition delete_employee (db : DB) (user_id : string) (id : string)
  : outcome * DB :=
  match
    oid <- ObjectId_of id ;;
    Go (delete_one (owned oid user_id) (employees db))
  with
  | Stop o => (o, db)
  | Go (deleted_count, coll) =>
      if (deleted_count =? 0)%nat
      then (error 403 "Not authorized", set_employees db coll)
      else (message 200 "Deleted", set_employees db coll)
  end.

(** [re.fullmatch] raises [TypeError] unless its subject is a [str]. *)
Definition expect_str (v : json) : flow string :=
  match v with
  | JStr s => Go s
  | _ => Stop (Raise TypeError)
  end.

(** [password.encode()] *)
Definition py_encode (v : json) : flow bytes :=
  match v with
  | JStr s => Go (encode s)
  | _ => Stop (Raise AttributeError)
  end.

Section Auth.

(** [bcrypt.hashpw(password, salt)], which gives nothing when bcrypt
    raises [ValueError] (a password it does not take),
    [bcrypt.checkpw(password, hashed)] and
    [flask_jwt_extended.create_access_token(identity=...)]. *)
Variable hashpw : bytes -> bytes -> option bytes.
Variable checkpw : bytes -> bytes -> bool.
Variable create_access_token : string -> string.

(** How the store reads a query document given as the value of
    [email]: the predicate on the stored value, or nothing when the
    server rejects the query. *)
Variable query_operator : dict -> option (string -> bool).

(** [POST /api/auth/register]: [salt] is [bcrypt.gensalt()], [new_id]
    the [_id] the store gives the inserted document. [insert_one]
    encodes the document first, and writes nothing when the name cannot be
    encoded. *)
Definition register (db : DB) (data : dict) (salt : bytes)
  (new_id : ObjectId) : outcome * DB :=
  let name := get data "name" in
  let email := get data "email" in
  let password := get data "password" in
  match
    unless (truthy name && truthy email && truthy password)
      (error 400 "All fields required") ;;;
    e <- expect_str email ;;
    unless (validate_email_format e) (error 400 "Invalid email format") ;;;
    long <- validate_password password ;;
    unless long (error 400 "Password must be 6+ chars") ;;;
    unless (negb (found (find_one (fun u => String.eqb (u_email u) e) (users db))))
      (error 400 "Email already exists") ;;;
    p <- py_encode password ;;
    hashed <- match hashpw p salt with
              | Some h => Go h
              | None => Stop (Raise ValueError)
              end ;;
    bson_value name ;;;
    Go (User new_id name e hashed)
  with
  | Stop o => (o, db)
  | Go doc =>
      (message 201 "Registered Successfully",
       set_users db (insert_one doc (users db)))
  end.

(** [{"email": email}] with whatever JSON value the request gave. *)
Definition email_filter (email : json) : flow (user -> bool) :=
  match email with
  | JStr s => Go (fun u => String.eqb (u_email u) s)
  | JObj q =>
      match query_operator q with
      | Some p => Go (fun u => p (u_email u))
      | None => Stop (Raise OperationFailure)
      end
  | _ => Go (fun _ => false)
  end.

(** [POST /api/auth/login] *)
Definition login (db : DB) (data : dict) : outcome :=
  let email := get data "email" in
  let password := get data "password" in
  match
    unless (truthy email && truthy password)
      (error 400 "All fields required") ;;;
    filter <- email_filter email ;;
    match find_one filter (users db) with
    | None => Stop (error 400 "Invalid credentials")
    | Some u =>
        p <- py_encode password ;;
        unless (checkpw p (u_password u)) (error 400 "Invalid credentials") ;;;
        Go (Resp 200 (JObj [("token", JStr (create_access_token (u_id u)));
                            ("name", u_name u)]))
    end
  with
  | Stop o => o
  | Go o => o
  end.

End Auth.

(** ** The rules in the words of the specification *)

(** Two dots in a row somewhere in the text. *)
Definition consecutive_dots (l : list ascii) : Prop :=
  exists p q, l = p ++ "."%char :: "."%char :: q.

Fixpoint dotdot (l : list ascii) : bool :=
  match l with
  | [] => false
  | c :: l' =>
      match l' with
      | d :: _ => Ascii.eqb c "." && Ascii.eqb d "." || dotdot l'
      | [] => false
      end
  end.

(** A letter, a digit or one of [. _ % + -]. *)
Definition interior_char (c : ascii) : Prop :=
  Chars.is_letter c = true \/ Chars.is_digit c = true \/
  In c ["."; "_"; "%"; "+"; "-"]%char.

(** The address rule: a local part of 6 to 30 characters whose first and
    last characters are alphanumeric, whose interior characters are
    letters, digits or [. _ % + -], with no two dots in a row, followed by
    the one hosting domain. *)
Definition email_rule (email : string) : Prop :=
  exists local : list ascii,
    chars email = local ++ chars "@gmail.com" /\
    (6 <= List.length local <= 30)%nat /\
    (exists first interior last,
        local = first :: interior ++ [last] /\
        Chars.is_alnum first = true /\
        Chars.is_alnum last = true /\
        Forall interior_char interior) /\
    ~ consecutive_dots local.

(** The five checks in their order. *)
Definition fields_valid (f : fields) : bool :=
  validate_name (f_name f) && validate_email_format (f_email f)
  && validate_text_field (f_department f)
  && validate_text_field (f_designation f)
  && validate_salary (f_salary f).

(** A salary that [int] reads and BSON can hold. *)
Definition salary_fits (salary : json) : bool :=
  match py_int salary with
  | Some n => int64 n
  | None => false
  end.

(** [row[key]] on a row of a JSON answer. *)
Definition json_get (row : json) (key : string) : json :=
  match row with
  | JObj d => get d key
  | _ => JNull
  end.

(** ** The store as the handlers keep it *)

(** Identifiers are the store's: distinct, and in printed form. *)
Definition ids_wf (db : DB) : Prop :=
  NoDup (map e_id (employees db)) /\
  Forall (fun e => canonical (e_id e) = true) (employees db).

(** The invariant of the data model: [(email, createdBy)] is unique. *)
Definition email_unique (db : DB) : Prop :=
  forall e1 e2,
    In e1 (employees db) -> In e2 (employees db) ->
    e_email e1 = e_email e2 -> e_createdBy e1 = e_createdBy e2 ->
    e_id e1 = e_id e2.

Definition store_ok (db : DB) : Prop := ids_wf db /\ email_unique db.

(** The documents [get_employees] serialises for a user. *)
Definition listed (db : DB) (user_id : string) : list employee :=
  find_all (created_by user_id) (employees db).

(** A request body whose four text fields are strings. *)
Definition employee_body (name email department designation : string)
  (salary : json) : dict :=
  [("name", JStr name); ("email", JStr email);
   ("department", JStr department); ("designation", JStr designation);
   ("salary", salary)].

(** The fields a handler works with, for such a body. *)
Definition stripped (name email department designation : string)
  (salary : json) : fields :=
  Fields (strip name) (strip email) (strip department) (strip designation)
    salary.

(** The document built from validated fields. *)
Definition document (id : ObjectId) (f : fields) (n : Z) (user_id : string)
  : employee :=
  Employee id (f_name f) (f_email f) (f_department f) (f_designation f) n
    user_id.


(** ** A small store for the examples

    Two users and their employees; bcrypt, the token signer and the
    store's operator queries stand as simple functions. *)

Definition alice : string := "64b000000000000000000001".
Definition bob : string := "64b000000000000000000002".

Definition ann : employee :=
  Employee "65a000000000000000000001" "Ann Lee" "annlee@gmail.com"
    "Sales" "Manager" 5000 alice.

Definition ray : employee :=
  Employee "65a000000000000000000002" "Bob Ray" "bobray@gmail.com"
    "Sales" "Clerk" 4000 bob.

Definition kim : employee :=
  Employee "65a000000000000000000004" "Kim Poe" "kimpoe@gmail.com"
    "Ops" "Clerk" 3000 bob.

Definition demo_hashpw (password salt : bytes) : option bytes :=
  Some (salt ++ password).

Definition demo_checkpw (password hashed : bytes) : bool :=
  let salt := firstn (List.length hashed - List.length password) hashed in
  if list_eq_dec Byte.byte_eq_dec (salt ++ password) hashed then true else false.

Definition demo_token (identity : string) : string := "token." ++ identity.

Definition demo_operator (q : dict) : option (string -> bool) := None.

Definition demo_salt : bytes := [Byte.x24; Byte.x32; Byte.x62].

Definition demo_db : DB :=
  Db [User alice (JStr "Alice") "alice1@gmail.com"
        (demo_salt ++ encode "secret1")]
     [ann; ray; kim].


(** ** The error taxonomy *)

Inductive error_class : Type :=
| ValidationError
| ConflictError
| AuthError
| ForbiddenError.

(** The class of each message the handlers send. *)
Definition class_of (msg : string) : option error_class :=
  if existsb (String.eqb msg)
       ["All fields required"; "Invalid email format";
        "Password must be 6+ chars"; "Invalid Name"; "Invalid Email";
        "Invalid Department"; "Invalid Role"; "Invalid Salary"]
  then Some ValidationError
  else if String.eqb msg "Email already exists" then Some ConflictError
  else if String.eqb msg "Invalid credentials" then Some AuthError
  else if String.eqb msg "Not authorized" then Some ForbiddenError
  else None.

(** The status of each class in the words of the specification. *)
Definition taxonomy_status (c : error_class) : nat :=
  match c with
  | ValidationError => 400
  | ConflictError => 400
  | AuthError => 401
  | ForbiddenError => 403
  end.

(** The status the handlers answer each class with. *)
Definition status_of (c : error_class) : nat :=
  match c with
  | ValidationError => 400
  | ConflictError => 400
  | AuthError => 400
  | ForbiddenError => 403
  end.

(** An outcome that, when it is an error response, has the body
    [{"error": message}] and the status of the message's class, the class
    being one of [classes]. *)
Definition answers_in (classes : list error_class) (o : outcome) : Prop :=
  match o with
  | Raise _ => True
  | Resp status body =>
      (status = 200 \/ status = 201)%nat \/
      exists msg c,
        body = JObj [("error", JStr msg)] /\
        class_of msg = Some c /\
        status = status_of c /\
        In c classes
  end.


Definition cy_id : ObjectId := "65a000000000000000000003".

Definition cy_body : dict :=
  employee_body " Cy Dee " "cydee1@gmail.com" "Ops" "Lead " (JStr "1200").

Definition cy_body' : dict :=
  employee_body "Cy Dee" "cydee2@gmail.com" "Ops" "Head" (JInt 1500).

Definition register_body : dict :=
  [("name", JStr "Bob"); ("email", JStr "bobray@gmail.com");
   ("password", JStr "hunter2")].

Definition unknown_login : dict :=
  [("email", JStr "nobody1@gmail.com"); ("password", JStr "secret1")].



(** ** Histories of the employee collection *)

(** One call of a writing handler of [routes/employee.py]. *)
Inductive call : Type :=
| Create (user_id : string) (data : dict) (new_id : ObjectId)
| Update (user_id : string) (id : string) (data : dict)
| Delete (user_id : string) (id : string).

Definition caller (c : call) : string :=
  match c with
  | Create user_id _ _ => user_id
  | Update user_id _ _ => user_id
  | Delete user_id _ => user_id
  end.

Definition perform (db : DB) (c : call) : outcome * DB :=
  match c with
  | Create user_id data new_id => create_employee db user_id data new_id
  | Update user_id id data => update_employee db user_id id data
  | Delete user_id id => delete_employee db user_id id
  end.

(** The store gives an inserted document an identifier of its own. *)
Definition fresh_for (db : DB) (c : call) : Prop :=
  match c with
  | Create _ _ new_id =>
      canonical new_id = true /\ ~ In new_id (map e_id (employees db))
  | _ => True
  end.

(** The stores that calls of the handlers build from an empty [employees]
    collection, whatever happens to [users] in between. *)
Inductive reachable : DB -> Prop :=
| reach_empty us : reachable (Db us [])
| reach_users db us : reachable db -> reachable (set_users db us)
| reach_call db c :
    reachable db -> fresh_for db c -> reachable (snd (perform db c)).

(** A document that would pass the validation block again: the four
    text fields as the validators want them and already stripped, the
    salary positive. *)
Definition document_valid (e : employee) : bool :=
  validate_name (e_name e) && validate_email_format (e_email e)
  && validate_text_field (e_department e)
  && validate_text_field (e_designation e)
  && (0 <? e_salary e)%Z
  && String.eqb (strip (e_name e)) (e_name e)
  && String.eqb (strip (e_email e)) (e_email e)
  && String.eqb (strip (e_department e)) (e_department e)
  && String.eqb (strip (e_designation e)) (e_designation e).

(** The keys of the body that the employee handlers read. *)
Definition employee_keys : list string :=
  ["name"; "email"; "department"; "designation"; "salary"].

(** Two bodies that agree on the keys the handlers read. *)
Definition same_on (keys : list string) (data data' : dict) : Prop :=
  forall k, In k keys -> lookup k data = lookup k data'.

(** A letter or a space. *)
Definition name_char (c : ascii) : Prop :=
  Chars.is_letter c = true \/ c = " "%char.

(** * Proofs *)

(** ** The matcher computes the denotation *)

Module ReFacts.
Import Re.

Lemma Matches_Eps_inv s : Matches Eps s -> s = [].
Proof. inversion 1; reflexivity. Qed.

Lemma Matches_Void_inv s : ~ Matches Void s.
Proof. inversion 1. Qed.

Lemma Matches_Class_inv p s :
  Matches (Class p) s -> exists c, s = [c] /\ p c = true.
Proof. inversion 1; subst; eauto. Qed.

Lemma Matches_Cat_inv a b s :
  Matches (Cat a b) s ->
  exists s1 s2, s = s1 ++ s2 /\ Matches a s1 /\ Matches b s2.
Proof. inversion 1; subst; eauto. Qed.

Lemma Matches_Alt_inv a b s :
  Matches (Alt a b) s -> Matches a s \/ Matches b s.
Proof. inversion 1; subst; auto. Qed.

Lemma Matches_Star_cons_inv a c s :
  Matches (Star a) (c :: s) ->
  exists s1 s2, s = s1 ++ s2 /\ Matches a (c :: s1) /\ Matches (Star a) s2.
Proof.
  intro H. inversion H as [ | | | | | | a' u t Hne Hu Ht Ha Heq]; subst.
  destruct u as [|d u]; [congruence|].
  simpl in Heq. injection Heq as -> <-. eauto.
Qed.

Lemma nullable_Matches r : nullable r = true <-> Matches r [].
Proof.
  induction r; simpl.
  - split; [discriminate | inversion 1].
  - split; [constructor | reflexivity].
  - split; [discriminate|].
    intro H. apply Matches_Class_inv in H as (c & Hc & _). discriminate.
  - rewrite andb_true_iff, IHr1, IHr2. split.
    + intros [Ha Hb]. change (@nil ascii) with (@nil ascii ++ []).
      constructor; assumption.
    + intro H. apply Matches_Cat_inv in H as (s1 & s2 & Heq & H1 & H2).
      symmetry in Heq. apply app_eq_nil in Heq as [-> ->]. auto.
  - rewrite orb_true_iff, IHr1, IHr2. split.
    + intros [H | H]; [apply MAltL | apply MAltR]; assumption.
    + apply Matches_Alt_inv.
  - split; [constructor | reflexivity].
Qed.

Lemma deriv_Matches c r : forall s, Matches (deriv c r) s <-> Matches r (c :: s).
Proof.
  induction r; intro s; simpl.
  - split; inversion 1.
  - split; inversion 1.
  - destruct (b c) eqn:Hp; split; intro H.
    + apply Matches_Eps_inv in H as ->. constructor; assumption.
    + apply Matches_Class_inv in H as (d & Heq & _).
      injection Heq as -> ->. constructor.
    + inversion H.
    + apply Matches_Class_inv in H as (d & Heq & Hd).
      injection Heq as -> ->. congruence.
  - assert (Hcat : Matches (Cat (deriv c r1) r2) s ->
                   Matches (Cat r1 r2) (c :: s)).
    { intro H. apply Matches_Cat_inv in H as (s1 & s2 & -> & H1 & H2).
      change (c :: s1 ++ s2) with ((c :: s1) ++ s2).
      constructor; [apply IHr1|]; assumption. }
    assert (Hinv : Matches (Cat r1 r2) (c :: s) ->
                   Matches (Cat (deriv c r1) r2) s \/
                   (Matches r1 [] /\ Matches r2 (c :: s))).
    { intro H. apply Matches_Cat_inv in H as (s1 & s2 & Heq & H1 & H2).
      destruct s1 as [|d s1]; simpl in Heq.
      - subst s2. right; split; assumption.
      - injection Heq as <- ->. left. constructor; [apply IHr1|]; assumption. }
    destruct (nullable r1) eqn:Hn; split; intro H.
    + apply Matches_Alt_inv in H as [H | H]; [auto|].
      change (c :: s) with ([] ++ c :: s).
      constructor; [apply nullable_Matches | apply IHr2]; assumption.
    + destruct (Hinv H) as [H' | [_ H']];
        [apply MAltL | apply MAltR, IHr2]; assumption.
    + auto.
    + destruct (Hinv H) as [H' | [H' _]]; [assumption|].
      apply nullable_Matches in H'. congruence.
  - split; intro H.
    + apply Matches_Alt_inv in H as [H | H];
        [apply MAltL, IHr1 | apply MAltR, IHr2]; assumption.
    + apply Matches_Alt_inv in H as [H | H];
        [apply MAltL, IHr1 | apply MAltR, IHr2]; assumption.
  - split; intro H.
    + apply Matches_Cat_inv in H as (s1 & s2 & -> & H1 & H2).
      change (c :: s1 ++ s2) with ((c :: s1) ++ s2).
      constructor; [discriminate | apply IHr | ]; assumption.
    + apply Matches_Star_cons_inv in H as (s1 & s2 & -> & H1 & H2).
      constructor; [apply IHr|]; assumption.
Qed.

Lemma fullmatch_Matches s : forall r, fullmatch r s = true <-> Matches r s.
Proof.
  induction s as [|c s IH]; intro r; simpl.
  - apply nullable_Matches.
  - rewrite IH. apply deriv_Matches.
Qed.

Lemma lookahead_Matches s :
  forall r, lookahead r s = true <->
            exists p q, s = p ++ q /\ Matches r p.
Proof.
  induction s as [|c s IH]; intro r; simpl.
  - rewrite orb_false_r, nullable_Matches. split.
    + intro H. exists [], []. auto.
    + intros (p & q & Heq & H). symmetry in Heq.
      apply app_eq_nil in Heq as [-> _]. assumption.
  - rewrite orb_true_iff, nullable_Matches, IH. split.
    + intros [H | (p & q & -> & H)].
      * exists [], (c :: s). auto.
      * exists (c :: p), q. split; [reflexivity|].
        apply deriv_Matches; assumption.
    + intros (p & q & Heq & H). destruct p as [|d p]; [left; assumption|].
      simpl in Heq. injection Heq as <- ->. right.
      exists p, q. split; [reflexivity|]. apply deriv_Matches; assumption.
Qed.

(** What the derived forms denote. *)

Lemma Matches_chr c s : Matches (chr c) s <-> s = [c].
Proof.
  unfold chr. split.
  - intro H. apply Matches_Class_inv in H as (d & -> & Hd).
    apply Ascii.eqb_eq in Hd. subst; reflexivity.
  - intros ->. constructor. apply Ascii.eqb_refl.
Qed.

Lemma Matches_lit l : forall s, Matches (lit l) s <-> s = l.
Proof.
  induction l as [|c l IH]; intro s; simpl; split; intro H.
  - apply Matches_Eps_inv; assumption.
  - subst; constructor.
  - apply Matches_Cat_inv in H as (s1 & s2 & -> & H1 & H2).
    apply Matches_chr in H1 as ->. apply IH in H2 as ->. reflexivity.
  - subst. change (c :: l) with ([c] ++ l).
    constructor; [apply Matches_chr | apply IH]; reflexivity.
Qed.

Lemma Matches_upto p n :
  forall s, Matches (upto (Class p) n) s <->
            (List.length s <= n)%nat /\ forallb p s = true.
Proof.
  induction n as [|n IH]; intro s; simpl; split.
  - intro H. apply Matches_Eps_inv in H as ->. auto.
  - intros [Hlen _]. destruct s; [constructor | simpl in Hlen; lia].
  - intro H. apply Matches_Alt_inv in H as [H | H].
    + apply Matches_Eps_inv in H as ->. simpl. split; [lia | reflexivity].
    + apply Matches_Cat_inv in H as (s1 & s2 & -> & H1 & H2).
      apply Matches_Class_inv in H1 as (c & -> & Hc).
      apply IH in H2 as [Hlen Hall]. simpl. rewrite Hc, Hall.
      split; [lia | reflexivity].
  - intros [Hlen Hall]. destruct s as [|c s]; [apply MAltL; constructor|].
    simpl in *. apply andb_true_iff in Hall as [Hc Hall].
    apply MAltR. change (c :: s) with ([c] ++ s).
    constructor; [constructor; assumption | apply IH; split; [lia | assumption]].
Qed.

Lemma Matches_rep p lo n :
  forall s, Matches (rep (Class p) lo n) s <->
            (lo <= List.length s <= lo + n)%nat /\ forallb p s = true.
Proof.
  induction lo as [|lo IH]; intro s; simpl.
  - rewrite Matches_upto. intuition lia.
  - split.
    + intro H. apply Matches_Cat_inv in H as (s1 & s2 & -> & H1 & H2).
      apply Matches_Class_inv in H1 as (c & -> & Hc).
      apply IH in H2 as [Hlen Hall]. simpl. rewrite Hc, Hall.
      split; [lia | reflexivity].
    + intros [Hlen Hall]. destruct s as [|c s]; [simpl in Hlen; lia|].
      simpl in *. apply andb_true_iff in Hall as [Hc Hall].
      change (c :: s) with ([c] ++ s).
      constructor; [constructor; assumption | apply IH; split; [lia | assumption]].
Qed.

Lemma Matches_Star_Class p s :
  Matches (Star (Class p)) s <-> forallb p s = true.
Proof.
  split.
  - induction s as [|c s IH]; intro H; [reflexivity|].
    apply Matches_Star_cons_inv in H as (s1 & s2 & -> & H1 & H2).
    apply Matches_Class_inv in H1 as (d & Heq & Hd).
    injection Heq as Hc Hs; subst d s1. simpl in *. rewrite Hd. apply IH. assumption.
  - induction s as [|c s IH]; intro H; [constructor|].
    simpl in H. apply andb_true_iff in H as [Hc Hall].
    change (c :: s) with ([c] ++ s).
    constructor; [discriminate | constructor; assumption | auto].
Qed.

End ReFacts.

(** ** Email format *)

Lemma dotdot_iff l : dotdot l = true <-> consecutive_dots l.
Proof.
  unfold consecutive_dots. induction l as [|c l IH]; simpl.
  - split; [discriminate|]. intros ([|? ?] & q & H); discriminate.
  - destruct l as [|d l].
    + split; [discriminate|].
      intros ([|? [|? ?]] & q & H); discriminate.
    + rewrite orb_true_iff, andb_true_iff, !Ascii.eqb_eq, IH. split.
      * intros [[-> ->] | (p & q & ->)].
        -- exists [], l. reflexivity.
        -- exists (c :: p), q. reflexivity.
      * intros ([|x p] & q & H); simpl in H.
        -- injection H as -> -> _. left; split; reflexivity.
        -- injection H as _ H. right. exists p, q. assumption.
Qed.

Lemma dotdot_app_sep l z r :
  z <> "."%char -> dotdot (l ++ z :: r) = dotdot l || dotdot r.
Proof.
  intro Hz. assert (Hzb : Ascii.eqb z "." = false) by (apply Ascii.eqb_neq; exact Hz).
  induction l as [|c l IH].
  - simpl. destruct r as [|d r]; [reflexivity|]. rewrite Hzb. reflexivity.
  - destruct l as [|d l].
    + simpl. rewrite Hzb, andb_false_r. simpl in IH.
      destruct r; [reflexivity | rewrite Hzb in IH; exact IH].
    + change ((c :: d :: l) ++ z :: r) with (c :: d :: (l ++ z :: r)).
      change (dotdot (c :: d :: (l ++ z :: r)))
        with (Ascii.eqb c "." && Ascii.eqb d "." || dotdot ((d :: l) ++ z :: r)).
      rewrite IH.
      change (dotdot (c :: d :: l))
        with (Ascii.eqb c "." && Ascii.eqb d "." || dotdot (d :: l)).
      rewrite orb_assoc. reflexivity.
Qed.

Lemma is_alnum_not_dot c : Chars.is_alnum c = true -> c <> "."%char.
Proof. intros H ->. discriminate H. Qed.

Lemma is_local_char_not_newline c :
  Chars.is_local_char c = true -> Chars.is_not_newline c = true.
Proof.
  unfold Chars.is_not_newline. intro H.
  destruct (Ascii.eqb c "010") eqn:E; [|reflexivity].
  apply Ascii.eqb_eq in E. subst c. discriminate H.
Qed.

Lemma is_local_char_iff c : Chars.is_local_char c = true <-> interior_char c.
Proof.
  unfold Chars.is_local_char, Chars.is_alnum, interior_char. simpl.
  rewrite !orb_true_iff, !Ascii.eqb_eq. intuition congruence.
Qed.

Lemma forallb_local_chars l :
  forallb Chars.is_local_char l = true <-> Forall interior_char l.
Proof.
  rewrite forallb_forall, Forall_forall.
  split; intros H c Hc; apply is_local_char_iff, H, Hc.
Qed.

(** The pattern body, read off the matcher. *)
Lemma email_body_iff s :
  Re.fullmatch email_body s = true <->
  exists first interior last,
    s = first :: interior ++ last :: chars "@gmail.com" /\
    Chars.is_alnum first = true /\ Chars.is_alnum last = true /\
    (4 <= List.length interior <= 28)%nat /\
    forallb Chars.is_local_char interior = true.
Proof.
  rewrite ReFacts.fullmatch_Matches. unfold email_body. split.
  - intro H.
    apply ReFacts.Matches_Cat_inv in H as (s1 & s2 & -> & H1 & H).
    apply ReFacts.Matches_Class_inv in H1 as (a & -> & Ha).
    apply ReFacts.Matches_Cat_inv in H as (mid & s3 & -> & Hmid & H).
    apply ReFacts.Matches_rep in Hmid as [Hlen Hall].
    apply ReFacts.Matches_Cat_inv in H as (s4 & dom & -> & H4 & Hdom).
    apply ReFacts.Matches_Class_inv in H4 as (z & -> & Hz).
    apply ReFacts.Matches_lit in Hdom as ->.
    exists a, mid, z. repeat split; try assumption; lia.
  - intros (a & mid & z & -> & Ha & Hz & Hlen & Hall).
    change (a :: mid ++ z :: chars "@gmail.com")
      with ([a] ++ mid ++ [z] ++ chars "@gmail.com").
    repeat constructor; try assumption.
    + apply ReFacts.Matches_rep. split; [lia | assumption].
    + apply ReFacts.Matches_lit. reflexivity.
Qed.

(** The lookahead [.*\.\.], read off the matcher. *)
Lemma email_lookahead_iff s :
  Re.lookahead email_lookahead s = true <->
  exists p q, s = p ++ "."%char :: "."%char :: q /\
              forallb Chars.is_not_newline p = true.
Proof.
  rewrite ReFacts.lookahead_Matches. unfold email_lookahead. split.
  - intros (p & q & -> & H).
    apply ReFacts.Matches_Cat_inv in H as (p1 & p2 & -> & H1 & H2).
    apply ReFacts.Matches_Star_Class in H1.
    apply ReFacts.Matches_lit in H2 as ->.
    exists p1, q. rewrite <- app_assoc. split; [reflexivity | assumption].
  - intros (p & q & -> & Hp).
    exists (p ++ chars ".."), q. rewrite <- app_assoc. split; [reflexivity|].
    constructor; [apply ReFacts.Matches_Star_Class; assumption|].
    apply ReFacts.Matches_lit. reflexivity.
Qed.

(** C4. [validate_email_format] accepts a string exactly when it obeys
    the address rule of the specification: a local part of 6 to 30
    characters, alphanumeric at both ends, letters, digits and [. _ % + -]
    inside, no two dots in a row, and the domain [gmail.com]. *)
Theorem C4_validate_email_format_rule (email : string) :
  validate_email_format email = true <-> email_rule email.
Proof.
  unfold validate_email_format. rewrite andb_true_iff, negb_true_iff. split.
  - intros [Hla Hbody].
    apply email_body_iff in Hbody as (a & mid & z & Hs & Ha & Hz & Hlen & Hall).
    assert (Hsplit : chars email = (a :: mid ++ [z]) ++ chars "@gmail.com").
    { rewrite Hs. simpl. rewrite <- app_assoc. reflexivity. }
    exists (a :: mid ++ [z]). split; [exact Hsplit|].
    split; [simpl; rewrite length_app; simpl; lia|].
    split.
    { exists a, mid, z. repeat split; try assumption.
      apply forallb_local_chars; assumption. }
    intros (p & q & Hpq).
    assert (Hlocal : forallb Chars.is_local_char (a :: mid ++ [z]) = true).
    { simpl. rewrite forallb_app. simpl. unfold Chars.is_local_char at 1 3.
      rewrite Ha, Hz, Hall. reflexivity. }
    assert (Hahead : Re.lookahead email_lookahead (chars email) = true).
    { apply email_lookahead_iff. exists p, (q ++ chars "@gmail.com").
      split.
      - rewrite Hsplit, Hpq, <- app_assoc. reflexivity.
      - rewrite Hpq, forallb_app in Hlocal.
        apply andb_true_iff in Hlocal as [Hp _].
        rewrite forallb_forall in *. intros c Hc.
        apply is_local_char_not_newline, Hp, Hc. }
    congruence.
  - intros (loc & Hs & Hlen & (a & mid & z & -> & Ha & Hz & Hint) & Hnd).
    assert (Hzdot : z <> "."%char) by (apply is_alnum_not_dot; assumption).
    split.
    + destruct (Re.lookahead email_lookahead (chars email)) eqn:E;
        [exfalso | reflexivity].
      apply email_lookahead_iff in E as (p & q & Hpq & _).
      assert (Hdd : dotdot (chars email) = true)
        by (apply dotdot_iff; exists p, q; exact Hpq).
      apply Hnd, dotdot_iff.
      assert (Hs' : chars email = (a :: mid) ++ z :: chars "@gmail.com").
      { rewrite Hs. simpl. rewrite <- app_assoc. reflexivity. }
      rewrite Hs', dotdot_app_sep in Hdd by assumption.
      change (a :: mid ++ [z]) with ((a :: mid) ++ [z]).
      rewrite dotdot_app_sep by assumption.
      rewrite orb_false_r. apply orb_true_iff in Hdd as [H | H];
        [assumption | discriminate H].
    + apply email_body_iff. exists a, mid, z.
      simpl in Hlen. rewrite length_app in Hlen. simpl in Hlen.
      repeat split; try assumption; try lia.
      * rewrite Hs. simpl. rewrite <- app_assoc. reflexivity.
      * apply forallb_local_chars; assumption.
Qed.

(** ** The validation block of the employee handlers *)

Lemma py_strip_stop v o : py_strip v = Stop o -> o = Raise AttributeError.
Proof. destruct v; simpl; congruence. Qed.

Lemma read_fields_stop data o :
  read_fields data = Stop o -> o = Raise AttributeError.
Proof.
  unfold read_fields, get_stripped.
  destruct (py_strip (get_default data "name" (JStr ""))) eqn:E1; simpl;
    [|intros [= <-]; eapply py_strip_stop; eassumption].
  destruct (py_strip (get_default data "email" (JStr ""))) eqn:E2; simpl;
    [|intros [= <-]; eapply py_strip_stop; eassumption].
  destruct (py_strip (get_default data "department" (JStr ""))) eqn:E3; simpl;
    [|intros [= <-]; eapply py_strip_stop; eassumption].
  destruct (py_strip (get_default data "designation" (JStr ""))) eqn:E4; simpl;
    [|intros [= <-]; eapply py_strip_stop; eassumption].
  discriminate.
Qed.

Lemma read_fields_salary data f :
  read_fields data = Go f -> f_salary f = get data "salary".
Proof.
  unfold read_fields.
  destruct (get_stripped data "name"); simpl; [|discriminate].
  destruct (get_stripped data "email"); simpl; [|discriminate].
  destruct (get_stripped data "department"); simpl; [|discriminate].
  destruct (get_stripped data "designation"); simpl; [|discriminate].
  intros [= <-]. reflexivity.
Qed.

Lemma validate_fields_go f :
  validate_fields f = Go tt <-> fields_valid f = true.
Proof.
  unfold validate_fields, fields_valid, unless.
  destruct (validate_name (f_name f)); simpl; [|split; discriminate].
  destruct (validate_email_format (f_email f)); simpl; [|split; discriminate].
  destruct (validate_text_field (f_department f)); simpl; [|split; discriminate].
  destruct (validate_text_field (f_designation f)); simpl; [|split; discriminate].
  destruct (validate_salary (f_salary f)); simpl; split; congruence.
Qed.

Lemma validate_fields_stop f o :
  validate_fields f = Stop o ->
  fields_valid f = false /\
  exists msg, o = error 400 msg /\
    In msg ["Invalid Name"; "Invalid Email"; "Invalid Department";
            "Invalid Role"; "Invalid Salary"].
Proof.
  unfold validate_fields, fields_valid, unless.
  destruct (validate_name (f_name f)); simpl;
    [|intros [= <-]; split; [reflexivity | eexists; split; [reflexivity | simpl; auto]]].
  destruct (validate_email_format (f_email f)); simpl;
    [|intros [= <-]; split; [reflexivity | eexists; split; [reflexivity | simpl; auto]]].
  destruct (validate_text_field (f_department f)); simpl;
    [|intros [= <-]; split; [reflexivity | eexists; split; [reflexivity | simpl; auto]]].
  destruct (validate_text_field (f_designation f)); simpl;
    [|intros [= <-]; split; [reflexivity | eexists; split; [reflexivity | simpl; auto 6]]].
  destruct (validate_salary (f_salary f)); simpl;
    [discriminate|].
  intros [= <-]; split; [reflexivity | eexists; split; [reflexivity | simpl; auto 6]].
Qed.

Lemma validate_fields_cases f :
  validate_fields f = Go tt \/ exists o, validate_fields f = Stop o.
Proof. destruct (validate_fields f) as [[]|o]; eauto. Qed.

Lemma validate_salary_iff salary :
  validate_salary salary = true <->
  exists n, py_int salary = Some n /\ (0 < n)%Z.
Proof.
  unfold validate_salary. destruct (py_int salary) as [n|].
  - rewrite Z.ltb_lt. split; [eauto|]. intros (m & [= ->] & H). exact H.
  - split; [discriminate|]. intros (m & H & _). discriminate.
Qed.

Lemma int_salary_valid salary :
  validate_salary salary = true ->
  exists n, int_salary salary = Go n /\ py_int salary = Some n /\ (0 < n)%Z.
Proof.
  intro H. apply validate_salary_iff in H as (n & Hn & Hpos).
  exists n. unfold int_salary. rewrite Hn. auto.
Qed.

Lemma fields_valid_salary f :
  fields_valid f = true -> validate_salary (f_salary f) = true.
Proof. unfold fields_valid. rewrite !andb_true_iff. tauto. Qed.

(** ** [create_employee], case by case *)

Lemma create_employee_unfold db user_id data new_id :
  create_employee db user_id data new_id =
  match read_fields data with
  | Stop o => (o, db)
  | Go f =>
      match validate_fields f with
      | Stop o => (o, db)
      | Go _ =>
          if found (find_one (same_email (f_email f) user_id) (employees db))
          then (error 400 "Email already exists", db)
          else
            match py_int (f_salary f) with
            | None => (Raise TypeError, db)
            | Some n =>
                if int64 n
                then
                  (message 201 "Employee Added",
                   set_employees db
                     (employees db ++
                      [Employee new_id (f_name f) (f_email f) (f_department f)
                         (f_designation f) n user_id]))
                else (Raise OverflowError, db)
            end
      end
  end.
Proof.
  unfold create_employee, int_salary, insert_one, bson_int.
  destruct (read_fields data) as [f|o]; simpl; [|reflexivity].
  destruct (validate_fields f) as [[]|o]; simpl; [|reflexivity].
  destruct (found _); simpl; [reflexivity|].
  destruct (py_int (f_salary f)) as [n|]; [|reflexivity].
  cbn [bind]. destruct (int64 n); reflexivity.
Qed.

Lemma create_employee_success db user_id data new_id db' :
  create_employee db user_id data new_id = (message 201 "Employee Added", db') ->
  exists f n,
    read_fields data = Go f /\ fields_valid f = true /\
    find_one (same_email (f_email f) user_id) (employees db) = None /\
    py_int (f_salary f) = Some n /\ ((0 < n)%Z /\ int64 n = true) /\
    db' = set_employees db
            (employees db ++
             [Employee new_id (f_name f) (f_email f) (f_department f)
                (f_designation f) n user_id]).
Proof.
  rewrite create_employee_unfold.
  destruct (read_fields data) as [f|o] eqn:Hread.
  2:{ apply read_fields_stop in Hread as ->. discriminate. }
  destruct (validate_fields f) as [[]|o] eqn:Hval.
  2:{ apply validate_fields_stop in Hval as (_ & msg & -> & _). discriminate. }
  apply validate_fields_go in Hval.
  destruct (find_one _ _) eqn:Hfind; simpl; [discriminate|].
  destruct (int_salary_valid _ (fields_valid_salary _ Hval)) as (n & _ & Hn & Hpos).
  rewrite Hn. destruct (int64 n) eqn:Hfit; [|discriminate].
  intros [= <-]. exists f, n. auto 8.
Qed.

Lemma int64_iff n : int64 n = true <-> (- 2 ^ 63 <= n <= 2 ^ 63 - 1)%Z.
Proof. unfold int64. rewrite andb_true_iff, !Z.leb_le. tauto. Qed.

Lemma truncation_positive (q : Q) :
  (0 < Z.quot (Qnum q) (Zpos (Qden q)))%Z <-> (1 <= q)%Q.
Proof.
  unfold Qle. simpl. rewrite Z.mul_1_r. split.
  - intro H.
    destruct (Z_lt_le_dec (Qnum q) (Zpos (Qden q))) as [Hlt | Hle];
      [exfalso | exact Hle].
    destruct (Z_lt_le_dec (Qnum q) 0) as [Hneg | Hpos].
    + assert (Z.quot (Qnum q) (Zpos (Qden q)) <= 0)%Z
        by (apply Z.quot_le_upper_bound; lia).
      lia.
    + rewrite Z.quot_small in H by lia. lia.
  - intro H. apply Z.quot_str_pos. lia.
Qed.

(** C3, as stated, fails: the JSON value [true] is no number, yet it is
    accepted, and the document is stored with the salary 1. *)
Lemma C3_boolean_salary_accepted :
  validate_salary (JBool true) = true /\
  create_employee demo_db alice
    (employee_body "Cy Dee" "cydee1@gmail.com" "Ops" "Lead" (JBool true)) cy_id
  = (message 201 "Employee Added",
     set_employees demo_db
       (employees demo_db ++
        [Employee cy_id "Cy Dee" "cydee1@gmail.com" "Ops" "Lead" 1 alice])).
Proof. split; vm_compute; reflexivity. Qed.

(** C3, amended. [validate_salary] succeeds exactly when [int(salary)]
    succeeds with a result greater than zero. So an integer is accepted
    when it is positive; a string when it is an integer literal (as
    [int] reads it) of positive value; a boolean when it is [true], which
    counts as 1; a finite float when it is at least 1, being truncated
    towards zero; [null], arrays, objects and the non-finite floats are
    rejected. ["abc"], ["-5"], ["0"] and [null] are rejected, ["1"] and
    [100000] are accepted; and the document that [create_employee] inserts
    holds the integer [int(salary)], which is then at most 2^63 - 1, what
    the store can hold. *)
Theorem C3_salary_validation :
  (forall salary,
      validate_salary salary = true <->
      exists n, py_int salary = Some n /\ (0 < n)%Z) /\
  (forall n, validate_salary (JInt n) = true <-> (0 < n)%Z) /\
  (forall s,
      validate_salary (JStr s) = true <->
      exists n, int_of_str s = Some n /\ (0 < n)%Z) /\
  (forall b, validate_salary (JBool b) = b) /\
  (forall q, validate_salary (JFloat (FFinite q)) = true <-> (1 <= q)%Q) /\
  (validate_salary JNull = false /\
   (forall l, validate_salary (JArr l) = false) /\
   (forall l, validate_salary (JObj l) = false) /\
   (forall negative, validate_salary (JFloat (FInf negative)) = false) /\
   validate_salary (JFloat FNan) = false) /\
  (validate_salary (JStr "abc") = false /\
   validate_salary (JStr "-5") = false /\
   validate_salary (JStr "0") = false /\
   validate_salary JNull = false) /\
  (validate_salary (JStr "1") = true /\
   validate_salary (JInt 100000) = true /\
   py_int (JStr "1") = Some 1%Z /\
   py_int (JInt 100000) = Some 100000%Z) /\
  (forall db user_id data new_id db',
      create_employee db user_id data new_id
      = (Resp 201 (JObj [("message", JStr "Employee Added")]), db') ->
      exists n doc,
        py_int (get data "salary") = Some n /\ (0 < n <= 2 ^ 63 - 1)%Z /\
        employees db' = employees db ++ [doc] /\
        e_salary doc = n).
Proof.
  split; [exact validate_salary_iff|].
  split; [intro n; unfold validate_salary; simpl; apply Z.ltb_lt|].
  split; [intro s; apply (validate_salary_iff (JStr s))|].
  split; [intros []; reflexivity|].
  split.
  { intro q. unfold validate_salary. simpl.
    rewrite Z.ltb_lt. apply truncation_positive. }
  split; [repeat split; reflexivity|].
  split; [repeat split; reflexivity|].
  split; [repeat split; reflexivity|].
  intros db user_id data new_id db' H.
  apply create_employee_success in H
    as (f & n & Hread & _ & _ & Hn & [Hpos Hfit] & ->).
  rewrite (read_fields_salary _ _ Hread) in Hn. apply int64_iff in Hfit.
  eexists n, _. split; [exact Hn|]. split; [lia|]. split; reflexivity.
Qed.

(** ** Collections *)

Section CollectionFacts.
Context {A : Type} (filter : A -> bool) (set : A -> A).

Lemma update_one_cases coll :
  (find_one filter coll = None /\ update_one filter set coll = (0%nat, coll)) \/
  (exists pre d post,
      coll = pre ++ d :: post /\
      forallb (fun x => negb (filter x)) pre = true /\
      filter d = true /\
      find_one filter coll = Some d /\
      update_one filter set coll = (1%nat, pre ++ set d :: post)).
Proof.
  unfold find_one. induction coll as [|x coll IH]; simpl; [left; auto|].
  destruct (filter x) eqn:Hx.
  - right. exists [], x, coll. simpl. auto.
  - destruct IH as [[Hnone ->] | (pre & d & post & -> & Hpre & Hd & Hfind & ->)].
    + left. auto.
    + right. exists (x :: pre), d, post. simpl. rewrite Hx, Hpre. auto.
Qed.

Lemma delete_one_cases coll :
  (find_one filter coll = None /\ delete_one filter coll = (0%nat, coll)) \/
  (exists pre d post,
      coll = pre ++ d :: post /\
      forallb (fun x => negb (filter x)) pre = true /\
      filter d = true /\
      find_one filter coll = Some d /\
      delete_one filter coll = (1%nat, pre ++ post)).
Proof.
  unfold find_one. induction coll as [|x coll IH]; simpl; [left; auto|].
  destruct (filter x) eqn:Hx.
  - right. exists [], x, coll. simpl. auto.
  - destruct IH as [[Hnone ->] | (pre & d & post & -> & Hpre & Hd & Hfind & ->)].
    + left. auto.
    + right. exists (x :: pre), d, post. simpl. rewrite Hx, Hpre. auto.
Qed.

Lemma find_one_none coll :
  find_one filter coll = None <-> forall x, In x coll -> filter x = false.
Proof.
  unfold find_one. split.
  - intros H x Hx. eapply find_none; eassumption.
  - intro H. destruct (find filter coll) as [x|] eqn:E; [|reflexivity].
    apply find_some in E as [Hin Hx]. rewrite (H x Hin) in Hx. discriminate.
Qed.

Lemma find_one_some coll d :
  find_one filter coll = Some d -> In d coll /\ filter d = true.
Proof. apply find_some. Qed.
End CollectionFacts.

(** ** Identifiers *)

Lemma to_lower_lower_hex c : is_lower_hex c = true -> Chars.to_lower c = c.
Proof.
  destruct c as [[] [] [] [] [] [] [] []]; vm_compute; intro H;
    try reflexivity; discriminate H.
Qed.

Lemma is_lower_hex_is_hex c : is_lower_hex c = true -> Chars.is_hex c = true.
Proof.
  unfold is_lower_hex, Chars.is_hex. intro H.
  apply orb_true_iff in H as [-> | ->]; [reflexivity|].
  rewrite orb_true_r. reflexivity.
Qed.

Lemma is_lower_hex_not_space c :
  is_lower_hex c = true -> Chars.is_c_space c = false.
Proof.
  destruct c as [[] [] [] [] [] [] [] []]; vm_compute; intro H;
    try reflexivity; discriminate H.
Qed.

Lemma fromhex_digits n : forall l,
  List.length l = (2 * n)%nat -> forallb is_lower_hex l = true ->
  fromhex l = Some l.
Proof.
  induction n as [|n IH]; intros l Hlen Hall.
  - destruct l; [reflexivity | discriminate Hlen].
  - destruct l as [|c [|d l]]; simpl in Hlen; try lia.
    cbn [forallb] in Hall.
    apply andb_true_iff in Hall as [Hc Hall].
    apply andb_true_iff in Hall as [Hd Hall].
    cbn [fromhex].
    rewrite (is_lower_hex_not_space _ Hc), (is_lower_hex_is_hex _ Hc),
      (is_lower_hex_is_hex _ Hd), IH by (assumption || lia).
    reflexivity.
Qed.

Lemma ObjectId_of_canonical o : canonical o = true -> ObjectId_of o = Go o.
Proof.
  unfold canonical, ObjectId_of. intro H.
  apply andb_true_iff in H as [Hlen Hall]. rewrite Hlen.
  assert (Hl : List.length (chars o) = (2 * 12)%nat).
  { apply Nat.eqb_eq in Hlen. transitivity (String.length o); [|exact Hlen].
    clear. induction o as [|c o IH]; simpl; [reflexivity | f_equal; exact IH]. }
  rewrite (fromhex_digits 12 _ Hl Hall).
  assert (Hmap : map Chars.to_lower (chars o) = chars o).
  { rewrite forallb_forall in Hall. clear Hlen Hl.
    induction (chars o) as [|c l IH]; [reflexivity|]. simpl. f_equal.
    - apply to_lower_lower_hex, Hall. left; reflexivity.
    - apply IH. intros x Hx. apply Hall. right; assumption. }
  rewrite Hmap. unfold text, chars.
  rewrite string_of_list_ascii_of_string. reflexivity.
Qed.

Lemma ObjectId_of_cases id :
  (exists oid, ObjectId_of id = Go oid) \/ ObjectId_of id = Stop (Raise InvalidId).
Proof.
  unfold ObjectId_of. destruct (_ =? _)%nat; [|auto].
  destruct (fromhex (chars id)); eauto.
Qed.

Lemma same_id_same_doc db e1 e2 :
  ids_wf db -> In e1 (employees db) -> In e2 (employees db) ->
  e_id e1 = e_id e2 -> e1 = e2.
Proof.
  intros [Hnd _]. induction (employees db) as [|x l IH]; simpl; [tauto|].
  inversion Hnd as [|? ? Hnot Hnd']; subst.
  intros [-> | H1] [-> | H2] Heq; auto.
  - exfalso. apply Hnot. rewrite Heq. apply in_map; assumption.
  - exfalso. apply Hnot. rewrite <- Heq. apply in_map; assumption.
Qed.

Lemma owned_iff oid user_id e :
  owned oid user_id e = true <-> e_id e = oid /\ e_createdBy e = user_id.
Proof. unfold owned. rewrite andb_true_iff, !String.eqb_eq. tauto. Qed.

Lemma same_email_iff email user_id e :
  same_email email user_id e = true <->
  e_email e = email /\ e_createdBy e = user_id.
Proof. unfold same_email. rewrite andb_true_iff, !String.eqb_eq. tauto. Qed.

Lemma other_with_email_iff email user_id oid e :
  other_with_email email user_id oid e = true <->
  e_email e = email /\ e_createdBy e = user_id /\ e_id e <> oid.
Proof.
  unfold other_with_email.
  rewrite andb_true_iff, negb_true_iff, same_email_iff, String.eqb_neq. tauto.
Qed.

Lemma listed_iff db user_id e :
  In e (listed db user_id) <-> In e (employees db) /\ e_createdBy e = user_id.
Proof.
  unfold listed, find_all, created_by. rewrite filter_In, String.eqb_eq. tauto.
Qed.

(** ** [update_employee] and [delete_employee], case by case *)

Lemma set_employees_same db : set_employees db (employees db) = db.
Proof. destruct db; reflexivity. Qed.

Lemma update_employee_unfold db user_id id data :
  update_employee db user_id id data =
  match read_fields data with
  | Stop o => (o, db)
  | Go f =>
      match validate_fields f with
      | Stop o => (o, db)
      | Go _ =>
          match ObjectId_of id with
          | Stop o => (o, db)
          | Go oid =>
              if found (find_one (other_with_email (f_email f) user_id oid)
                          (employees db))
              then (error 400 "Email already exists", db)
              else
                match py_int (f_salary f) with
                | None => (Raise TypeError, db)
                | Some n =>
                    if int64 n then
                      match find_one (owned oid user_id) (employees db) with
                      | None => (error 403 "Not authorized", db)
                      | Some _ =>
                          (message 200 "Updated",
                           set_employees db
                             (snd (update_one (owned oid user_id)
                                     (set_fields f n) (employees db))))
                      end
                    else (Raise OverflowError, db)
                end
          end
      end
  end.
Proof.
  unfold update_employee, int_salary, bson_int.
  destruct (read_fields data) as [f|o]; simpl; [|reflexivity].
  destruct (validate_fields f) as [[]|o]; simpl; [|reflexivity].
  destruct (ObjectId_of id) as [oid|o]; simpl; [|reflexivity].
  destruct (found _); simpl; [reflexivity|].
  destruct (py_int (f_salary f)) as [n|]; [|reflexivity].
  cbn [bind]. destruct (int64 n); [|reflexivity]. cbn [bind].
  destruct (update_one_cases (owned oid user_id) (set_fields f n) (employees db))
    as [[Hnone ->] | (pre & d & post & _ & _ & _ & Hsome & ->)].
  - rewrite Hnone. simpl. rewrite set_employees_same. reflexivity.
  - rewrite Hsome. reflexivity.
Qed.

Lemma delete_employee_unfold db user_id id :
  delete_employee db user_id id =
  match ObjectId_of id with
  | Stop o => (o, db)
  | Go oid =>
      match find_one (owned oid user_id) (employees db) with
      | None => (error 403 "Not authorized", db)
      | Some _ =>
          (message 200 "Deleted",
           set_employees db (snd (delete_one (owned oid user_id) (employees db))))
      end
  end.
Proof.
  unfold delete_employee.
  destruct (ObjectId_of id) as [oid|o]; simpl; [|reflexivity].
  destruct (delete_one_cases (owned oid user_id) (employees db))
    as [[Hnone ->] | (pre & d & post & _ & _ & _ & Hsome & ->)].
  - rewrite Hnone. simpl. rewrite set_employees_same. reflexivity.
  - rewrite Hsome. reflexivity.
Qed.

(** Nobody but the owner matches a document. *)
Lemma not_owned_by_other db e oid other :
  ids_wf db -> In e (employees db) -> e_id e = oid ->
  e_createdBy e <> other ->
  find_one (owned oid other) (employees db) = None.
Proof.
  intros Hwf Hin Hid Hne. apply find_one_none. intros d Hd.
  destruct (owned oid other d) eqn:E; [exfalso | reflexivity].
  apply owned_iff in E as [Hdid Hdby].
  assert (d = e) by (eapply same_id_same_doc; eauto; congruence).
  subst d. contradiction.
Qed.

(** ** Owner isolation *)

(** C1, as stated, fails: an update by another user on a record that is
    not theirs answers with the conflict error, not with 403, when that
    user already has an employee with the target email. *)
Lemma C1_update_by_other_conflict :
  In ann (employees demo_db) /\
  e_createdBy ann = alice /\ alice <> bob /\
  update_employee demo_db bob (e_id ann)
    (employee_body "Bob Ray" "bobray@gmail.com" "Sales" "Clerk" (JInt 4100))
  = (error 400 "Email already exists", demo_db) /\
  error 400 "Email already exists" <> error 403 "Not authorized".
Proof.
  split; [simpl; auto|].
  split; [reflexivity|].
  split; [discriminate|].
  split; [vm_compute; reflexivity | discriminate].
Qed.

(** C1, amended. For users A and B with A different from B and a record
    created by A: every row of the list of B is a document of B, sent
    with its seven fields, and none carries that record's identifier; an
    update by B on that identifier never succeeds and leaves the store as
    it was, and it answers 403 "Not authorized" once the fields pass
    validation, the salary fits the 8-byte integer of the store and no
    other employee of B has the target email (validation, the duplicate
    check and the encoding of the salary come first); a delete by B on
    that identifier answers 403 "Not authorized" and leaves the store as it
    was. In both, the filter matches no document. *)
Theorem C1_owner_isolation (db : DB) (e : employee) (A B : string) :
  ids_wf db -> In e (employees db) -> e_createdBy e = A -> A <> B ->
  (exists rows,
      get_employees db B = Resp 200 (JArr rows) /\
      forall row, In row rows ->
        json_get row "_id" <> JStr (e_id e) /\
        exists d,
          In d (employees db) /\ e_createdBy d = B /\ e_id d <> e_id e /\
          row = JObj [("_id", JStr (e_id d)); ("name", JStr (e_name d));
                      ("email", JStr (e_email d));
                      ("department", JStr (e_department d));
                      ("designation", JStr (e_designation d));
                      ("salary", JInt (e_salary d));
                      ("createdBy", JStr B)]) /\
  find_one (owned (e_id e) B) (employees db) = None /\
  (forall id data,
      ObjectId_of id = Go (e_id e) ->
      (forall o db',
          update_employee db B id data = (o, db') ->
          db' = db /\ o <> Resp 200 (JObj [("message", JStr "Updated")])) /\
      (forall f,
          read_fields data = Go f -> fields_valid f = true ->
          salary_fits (f_salary f) = true ->
          find_one (other_with_email (f_email f) B (e_id e)) (employees db)
          = None ->
          update_employee db B id data
          = (Resp 403 (JObj [("error", JStr "Not authorized")]), db))) /\
  (forall id,
      ObjectId_of id = Go (e_id e) ->
      delete_employee db B id
      = (Resp 403 (JObj [("error", JStr "Not authorized")]), db)).
Proof.
  intros Hwf Hin Hby Hne.
  assert (Hnone : find_one (owned (e_id e) B) (employees db) = None).
  { eapply not_owned_by_other; eauto. congruence. }
  split.
  { eexists. split; [reflexivity|]. intros row Hrow.
    apply in_map_iff in Hrow as (d & <- & Hd).
    apply listed_iff in Hd as [Hd HdB].
    assert (Hid : e_id d <> e_id e).
    { intro Heq. assert (d = e) by (eapply same_id_same_doc; eauto).
      subst d. congruence. }
    split.
    - simpl. intros [= Heq]. exact (Hid Heq).
    - exists d. repeat split; try assumption.
      unfold employee_json. rewrite HdB. reflexivity. }
  split; [exact Hnone|].
  split.
  - intros id data Hid. split.
    + intros o db'. rewrite update_employee_unfold, Hid, Hnone.
      destruct (read_fields data) as [f|o1] eqn:Hread.
      2:{ apply read_fields_stop in Hread as ->.
          intros [= <- <-]. split; [reflexivity | discriminate]. }
      destruct (validate_fields f) as [[]|o1] eqn:Hval.
      2:{ apply validate_fields_stop in Hval as (_ & msg & -> & _).
          intros [= <- <-]. split; [reflexivity | discriminate]. }
      destruct (found _);
        [intros [= <- <-]; split; [reflexivity | discriminate]|].
      destruct (py_int (f_salary f)) as [n|];
        [|intros [= <- <-]; split; [reflexivity | discriminate]].
      destruct (int64 n);
        intros [= <- <-]; split; try reflexivity; discriminate.
    + intros f Hread Hval Hfit Hother.
      rewrite update_employee_unfold, Hread, Hid, Hother, Hnone.
      apply validate_fields_go in Hval as Hgo. rewrite Hgo. simpl.
      unfold salary_fits in Hfit.
      destruct (py_int (f_salary f)) as [n|]; [|discriminate Hfit].
      rewrite Hfit. reflexivity.
  - intros id Hid. rewrite delete_employee_unfold, Hid, Hnone. reflexivity.
Qed.

(** ** The handlers keep the store well formed

    Distinct identifiers and the uniqueness of [(email, createdBy)] hold
    of the empty store and are kept by every handler, so they hold of
    every store the handlers build. *)

Lemma create_employee_cases db user_id data new_id o db' :
  create_employee db user_id data new_id = (o, db') ->
  db' = db \/
  exists f n,
    find_one (same_email (f_email f) user_id) (employees db) = None /\
    db' = set_employees db (employees db ++ [document new_id f n user_id]).
Proof.
  rewrite create_employee_unfold.
  destruct (read_fields data) as [f|]; [|intros [= _ <-]; auto].
  destruct (validate_fields f); [|intros [= _ <-]; auto].
  destruct (find_one _ _) eqn:Hfind; simpl; [intros [= _ <-]; auto|].
  destruct (py_int _) as [n|]; [|intros [= _ <-]; auto].
  destruct (int64 n); [|intros [= _ <-]; auto].
  intros [= _ <-]. right. exists f, n. auto.
Qed.

Lemma update_employee_cases db user_id id data o db' :
  update_employee db user_id id data = (o, db') ->
  db' = db \/
  exists f n oid pre d post,
    find_one (other_with_email (f_email f) user_id oid) (employees db) = None /\
    employees db = pre ++ d :: post /\
    owned oid user_id d = true /\
    db' = set_employees db (pre ++ set_fields f n d :: post).
Proof.
  rewrite update_employee_unfold.
  destruct (read_fields data) as [f|]; [|intros [= _ <-]; auto].
  destruct (validate_fields f); [|intros [= _ <-]; auto].
  destruct (ObjectId_of id) as [oid|]; [|intros [= _ <-]; auto].
  destruct (find_one (other_with_email _ _ _) _) eqn:Hother; simpl;
    [intros [= _ <-]; auto|].
  destruct (py_int _) as [n|]; [|intros [= _ <-]; auto].
  destruct (int64 n); [|intros [= _ <-]; auto].
  destruct (update_one_cases (owned oid user_id) (set_fields f n) (employees db))
    as [[-> _] | (pre & d & post & Hsplit & _ & Hd & -> & ->)];
    [intros [= _ <-]; auto|].
  intros [= _ <-]. right. exists f, n, oid, pre, d, post. auto.
Qed.

Lemma delete_employee_cases db user_id id o db' :
  delete_employee db user_id id = (o, db') ->
  db' = db \/
  exists pre d post,
    employees db = pre ++ d :: post /\
    db' = set_employees db (pre ++ post).
Proof.
  rewrite delete_employee_unfold.
  destruct (ObjectId_of id) as [oid|]; [|intros [= _ <-]; auto].
  destruct (delete_one_cases (owned oid user_id) (employees db))
    as [[-> _] | (pre & d & post & Hsplit & _ & Hd & -> & ->)];
    [intros [= _ <-]; auto|].
  intros [= _ <-]. right. exists pre, d, post. auto.
Qed.

Lemma empty_store_ok us : store_ok (Db us []).
Proof.
  split; [split; constructor|]. intros e1 e2 [].
Qed.

Lemma create_employee_keeps_store_ok db user_id data new_id o db' :
  store_ok db ->
  ~ In new_id (map e_id (employees db)) -> canonical new_id = true ->
  create_employee db user_id data new_id = (o, db') ->
  store_ok db'.
Proof.
  intros [[Hnd Hcan] Huniq] Hfresh Hnew H.
  apply create_employee_cases in H as [-> | (f & n & Hdup & ->)];
    [split; [split|]; assumption|].
  split; [split|]; simpl.
  - rewrite map_app. simpl.
    apply NoDup_app; [assumption | repeat constructor; simpl; tauto|].
    intros x Hx [<- | []]. contradiction.
  - apply Forall_app. split; [assumption | repeat constructor; assumption].
  - intros e1 e2 H1 H2 Hemail Hby. simpl in H1, H2.
    apply in_app_or in H1 as [H1 | [<- | []]];
      apply in_app_or in H2 as [H2 | [<- | []]];
      [apply Huniq; assumption | exfalso | exfalso | reflexivity].
    + simpl in Hemail, Hby.
      assert (Hsame : same_email (f_email f) user_id e1 = true)
        by (apply same_email_iff; auto).
      rewrite (proj1 (find_one_none _ _) Hdup e1 H1) in Hsame. discriminate.
    + simpl in Hemail, Hby.
      assert (Hsame : same_email (f_email f) user_id e2 = true)
        by (apply same_email_iff; auto).
      rewrite (proj1 (find_one_none _ _) Hdup e2 H2) in Hsame. discriminate.
Qed.

Lemma NoDup_middle_neq (pre post : list employee) d x :
  NoDup (map e_id (pre ++ d :: post)) -> In x (pre ++ post) ->
  e_id x <> e_id d.
Proof.
  rewrite map_app. simpl. intros Hnd Hx Heq.
  apply NoDup_remove_2 in Hnd. apply Hnd. rewrite <- Heq, <- map_app.
  apply in_map. assumption.
Qed.

Lemma in_middle {A : Type} (pre post : list A) d x :
  In x (pre ++ d :: post) <-> x = d \/ In x (pre ++ post).
Proof.
  rewrite !in_app_iff. simpl. split; intros H; intuition auto.
Qed.

Lemma update_employee_keeps_store_ok db user_id id data o db' :
  store_ok db ->
  update_employee db user_id id data = (o, db') ->
  store_ok db'.
Proof.
  intros [[Hnd Hcan] Huniq] H.
  apply update_employee_cases in H
    as [-> | (f & n & oid & pre & d & post & Hother & Hsplit & Hd & ->)];
    [split; [split|]; assumption|].
  apply owned_iff in Hd as [Hid Hby].
  assert (Hclash : forall x, In x (pre ++ post) ->
                             e_email x = f_email f ->
                             e_createdBy x = user_id -> False).
  { intros x Hx Hemail Hxby.
    assert (Hin : In x (employees db))
      by (rewrite Hsplit; apply in_middle; auto).
    assert (Hneq : e_id x <> oid).
    { rewrite <- Hid. eapply NoDup_middle_neq; [|eassumption].
      rewrite <- Hsplit. assumption. }
    assert (Ho : other_with_email (f_email f) user_id oid x = true)
      by (apply other_with_email_iff; auto).
    rewrite (proj1 (find_one_none _ _) Hother x Hin) in Ho. discriminate. }
  split; [split|]; simpl.
  - rewrite Hsplit in Hnd. rewrite map_app in *. exact Hnd.
  - rewrite Hsplit in Hcan. rewrite Forall_app in *.
    destruct Hcan as [Hpre Hpost]. split; [assumption|].
    inversion Hpost; subst. constructor; assumption.
  - intros e1 e2 H1 H2 Hemail Hby'. simpl in H1, H2.
    apply in_middle in H1 as [-> | H1]; apply in_middle in H2 as [-> | H2];
      [reflexivity | exfalso | exfalso |].
    + simpl in Hemail, Hby'. apply (Hclash e2 H2); congruence.
    + simpl in Hemail, Hby'. apply (Hclash e1 H1); congruence.
    + apply Huniq; try assumption; rewrite Hsplit; apply in_middle; auto.
Qed.

Lemma delete_employee_keeps_store_ok db user_id id o db' :
  store_ok db ->
  delete_employee db user_id id = (o, db') ->
  store_ok db'.
Proof.
  intros [[Hnd Hcan] Huniq] H.
  apply delete_employee_cases in H as [-> | (pre & d & post & Hsplit & ->)];
    [split; [split|]; assumption|].
  split; [split|]; simpl.
  - rewrite Hsplit, map_app in Hnd. simpl in Hnd.
    apply NoDup_remove_1 in Hnd. rewrite map_app. exact Hnd.
  - rewrite Hsplit in Hcan. rewrite Forall_app in *.
    destruct Hcan as [Hpre Hpost]. split; [assumption|].
    inversion Hpost; subst. assumption.
  - intros e1 e2 H1 H2. simpl in H1, H2.
    apply Huniq; rewrite Hsplit; apply in_middle; auto.
Qed.

(** ** Round trip *)

Lemma read_fields_body name email department designation salary :
  read_fields (employee_body name email department designation salary)
  = Go (stripped name email department designation salary).
Proof. reflexivity. Qed.

Lemma fresh_no_match db new_id (p : employee -> bool) :
  ~ In new_id (map e_id (employees db)) ->
  (forall e, p e = true -> e_id e = new_id) ->
  find_one p (employees db) = None.
Proof.
  intros Hfresh Hp. apply find_one_none. intros x Hx.
  destruct (p x) eqn:E; [exfalso | reflexivity].
  apply Hfresh. rewrite <- (Hp x E). apply in_map; assumption.
Qed.

Section LastDocument.
Context {A : Type} (filter : A -> bool) (set : A -> A).

Lemma find_one_last coll d :
  find_one filter coll = None ->
  find_one filter (coll ++ [d]) = if filter d then Some d else None.
Proof.
  unfold find_one. induction coll as [|x coll IH]; simpl; [reflexivity|].
  destruct (filter x); [discriminate | exact IH].
Qed.

Lemma update_one_last coll d :
  find_one filter coll = None -> filter d = true ->
  update_one filter set (coll ++ [d]) = (1%nat, coll ++ [set d]).
Proof.
  unfold find_one. intros Hnone Hd.
  induction coll as [|x coll IH]; simpl in *; [rewrite Hd; reflexivity|].
  destruct (filter x); [discriminate|]. rewrite (IH Hnone). reflexivity.
Qed.

Lemma delete_one_last coll d :
  find_one filter coll = None -> filter d = true ->
  delete_one filter (coll ++ [d]) = (1%nat, coll).
Proof.
  unfold find_one. intros Hnone Hd.
  induction coll as [|x coll IH]; simpl in *; [rewrite Hd; reflexivity|].
  destruct (filter x); [discriminate|]. rewrite (IH Hnone). reflexivity.
Qed.
End LastDocument.

Lemma set_employees_twice db c1 c2 :
  set_employees (set_employees db c1) c2 = set_employees db c2.
Proof. reflexivity. Qed.

Lemma employees_set db coll : employees (set_employees db coll) = coll.
Proof. reflexivity. Qed.

(** C2. Create, list, update, list, delete, list. For text fields that
    pass validation after stripping and a salary that [int] reads and the
    store can hold: the create answers 201 and the list of the user then
    carries a row with the new identifier as a string, the stripped text
    fields and the salary as an integer; the update of that identifier
    answers 200 and the list then carries the new values under it and
    nothing else under it; the delete answers 200 and the list then
    carries no row with that identifier. *)
Theorem C2_crud_round_trip
  (db : DB) (user_id : string) (new_id : ObjectId)
  (name email department designation : string) (salary : json) (n : Z)
  (name' email' department' designation' : string) (salary' : json) (n' : Z) :
  let row := fun (nm em dp dg : string) (sal : Z) =>
    JObj [("_id", JStr new_id); ("name", JStr nm); ("email", JStr em);
          ("department", JStr dp); ("designation", JStr dg);
          ("salary", JInt sal); ("createdBy", JStr user_id)] in
  let created :=
    Employee new_id (strip name) (strip email) (strip department)
      (strip designation) n user_id in
  let updated :=
    Employee new_id (strip name') (strip email') (strip department')
      (strip designation') n' user_id in
  let db1 := Db (users db) (employees db ++ [created]) in
  let db2 := Db (users db) (employees db ++ [updated]) in
  ~ In new_id (map e_id (employees db)) -> canonical new_id = true ->
  fields_valid (stripped name email department designation salary) = true ->
  py_int salary = Some n -> int64 n = true ->
  find_one (same_email (strip email) user_id) (employees db) = None ->
  fields_valid (stripped name' email' department' designation' salary') = true ->
  py_int salary' = Some n' -> int64 n' = true ->
  find_one (other_with_email (strip email') user_id new_id) (employees db)
  = None ->
  (create_employee db user_id
     (employee_body name email department designation salary) new_id
   = (Resp 201 (JObj [("message", JStr "Employee Added")]), db1) /\
   exists rows,
     get_employees db1 user_id = Resp 200 (JArr rows) /\
     In (row (strip name) (strip email) (strip department)
           (strip designation) n) rows) /\
  (update_employee db1 user_id new_id
     (employee_body name' email' department' designation' salary')
   = (Resp 200 (JObj [("message", JStr "Updated")]), db2) /\
   exists rows,
     get_employees db2 user_id = Resp 200 (JArr rows) /\
     In (row (strip name') (strip email') (strip department')
           (strip designation') n') rows /\
     forall r, In r rows -> json_get r "_id" = JStr new_id ->
               r = row (strip name') (strip email') (strip department')
                     (strip designation') n') /\
  (delete_employee db2 user_id new_id
   = (Resp 200 (JObj [("message", JStr "Deleted")]), db) /\
   exists rows,
     get_employees db user_id = Resp 200 (JArr rows) /\
     forall r, In r rows -> json_get r "_id" <> JStr new_id).
Proof.
  intros row created updated db1 db2 Hfresh Hcan Hv Hn Hfit Hdup Hv' Hn' Hfit'
    Hdup'.
  set (f := stripped name email department designation salary) in *.
  set (f' := stripped name' email' department' designation' salary') in *.
  assert (Hoid : ObjectId_of new_id = Go new_id)
    by (apply ObjectId_of_canonical; assumption).
  assert (Hnone : find_one (owned new_id user_id) (employees db) = None).
  { apply (fresh_no_match db new_id); [assumption|].
    intros e He. apply owned_iff in He as [He _]. exact He. }
  assert (Hlast : forall doc,
             e_id doc = new_id -> e_createdBy doc = user_id ->
             In doc (listed (Db (users db) (employees db ++ [doc])) user_id)).
  { intros doc Hid Hby. apply listed_iff. split; [|assumption].
    simpl. apply in_or_app. right. left. reflexivity. }
  assert (Honly : forall doc d,
             e_id doc = new_id ->
             In d (listed (Db (users db) (employees db ++ [doc])) user_id) ->
             e_id d = new_id -> d = doc).
  { intros doc d Hid Hd Hdid. apply listed_iff in Hd as [Hd _]. simpl in Hd.
    apply in_app_or in Hd as [Hd | [Hd | []]]; [exfalso | auto].
    apply Hfresh. rewrite <- Hdid. apply in_map; assumption. }
  split; [|split].
  - split.
    + rewrite create_employee_unfold, read_fields_body.
      apply validate_fields_go in Hv. fold f. rewrite Hv.
      change (f_email f) with (strip email). rewrite Hdup. simpl found.
      cbv iota. change (f_salary f) with salary. rewrite Hn, Hfit.
      reflexivity.
    + eexists. split; [reflexivity|].
      apply in_map_iff. exists created. split; [reflexivity|].
      apply (Hlast created); reflexivity.
  - split.
    + rewrite update_employee_unfold, read_fields_body.
      apply validate_fields_go in Hv'. fold f'. rewrite Hv', Hoid.
      change (f_email f') with (strip email').
      change (f_salary f') with salary'. rewrite Hn', Hfit'.
      unfold db1. cbn [employees].
      rewrite (find_one_last _ _ created Hdup').
      assert (Hself : other_with_email (strip email') user_id new_id created
                      = false).
      { unfold other_with_email. simpl. rewrite String.eqb_refl.
        apply andb_false_r. }
      rewrite Hself. simpl found. cbv iota.
      assert (Hown : owned new_id user_id created = true)
        by (apply owned_iff; split; reflexivity).
      rewrite (find_one_last _ _ created Hnone), Hown.
      rewrite (update_one_last _ _ _ created Hnone Hown).
      reflexivity.
    + eexists. split; [reflexivity|]. split.
      * apply in_map_iff. exists updated. split; [reflexivity|].
        apply (Hlast updated); reflexivity.
      * intros r Hr Hid. apply in_map_iff in Hr as (d & <- & Hd).
        simpl in Hid. injection Hid as Hid.
        rewrite (Honly updated d eq_refl Hd Hid). reflexivity.
  - split.
    + rewrite delete_employee_unfold, Hoid. unfold db2. cbn [employees].
      assert (Hown : owned new_id user_id updated = true)
        by (apply owned_iff; split; reflexivity).
      rewrite (find_one_last _ _ updated Hnone), Hown.
      rewrite (delete_one_last _ _ updated Hnone Hown). cbn [snd].
      destruct db; reflexivity.
    + eexists. split; [reflexivity|].
      intros r Hr Hid. apply in_map_iff in Hr as (d & <- & Hd).
      simpl in Hid. injection Hid as Hid.
      apply listed_iff in Hd as [Hd _].
      apply Hfresh. rewrite <- Hid. apply in_map; assumption.
Qed.

Lemma found_find_one_iff {A : Type} (p : A -> bool) (coll : list A) :
  found (find_one p coll) = true <-> exists d, In d coll /\ p d = true.
Proof.
  destruct (find_one p coll) as [d|] eqn:E; simpl.
  - apply find_one_some in E. split; eauto.
  - split; [discriminate|]. intros (d & Hd & Hp).
    rewrite (proj1 (find_one_none p coll) E d Hd) in Hp. discriminate.
Qed.

(** ** Register and login *)

Section AuthFacts.
Variable hashpw : bytes -> bytes -> option bytes.
Variable checkpw : bytes -> bytes -> bool.
Variable create_access_token : string -> string.
Variable query_operator : dict -> option (string -> bool).

Lemma register_unfold db data salt new_id :
  register hashpw db data salt new_id =
  let name := get data "name" in
  let email := get data "email" in
  let password := get data "password" in
  if negb (truthy name && truthy email && truthy password)
  then (error 400 "All fields required", db)
  else
    match email with
    | JStr e =>
        if negb (validate_email_format e)
        then (error 400 "Invalid email format", db)
        else
          match py_len password with
          | Stop o => (o, db)
          | Go len =>
              if negb (6 <=? len)%nat
              then (error 400 "Password must be 6+ chars", db)
              else if found (find_one (fun u => String.eqb (u_email u) e)
                               (users db))
              then (error 400 "Email already exists", db)
              else
                match password with
                | JStr p =>
                    match hashpw (encode p) salt with
                    | None => (Raise ValueError, db)
                    | Some h =>
                        match bson_error name with
                        | Some x => (Raise x, db)
                        | None =>
                            (message 201 "Registered Successfully",
                             set_users db (users db ++ [User new_id name e h]))
                        end
                    end
                | _ => (Raise AttributeError, db)
                end
          end
    | _ => (Raise TypeError, db)
    end.
Proof.
  unfold register, validate_password, insert_one, bson_value. cbv zeta.
  destruct (truthy (get data "name") && truthy (get data "email")
            && truthy (get data "password")); [|reflexivity].
  destruct (get data "email") as [ | | | |e| | ]; try reflexivity.
  cbn [negb unless bind expect_str].
  destruct (validate_email_format e); [|reflexivity].
  cbn [negb unless bind].
  destruct (py_len (get data "password")) as [len|o]; [|reflexivity].
  cbn [negb unless bind].
  destruct (6 <=? len)%nat; [|reflexivity].
  cbn [negb unless bind].
  destruct (found _); [reflexivity|].
  destruct (get data "password"); try reflexivity.
  cbn [negb unless bind py_encode].
  destruct (hashpw _ _); [|reflexivity]. cbn [bind].
  destruct (bson_error _); reflexivity.
Qed.

Lemma login_unfold db data :
  login checkpw create_access_token query_operator db data =
  let email := get data "email" in
  let password := get data "password" in
  if negb (truthy email && truthy password)
  then error 400 "All fields required"
  else
    match email_filter query_operator email with
    | Stop o => o
    | Go filter =>
        match find_one filter (users db) with
        | None => error 400 "Invalid credentials"
        | Some u =>
            match password with
            | JStr p =>
                if checkpw (encode p) (u_password u)
                then Resp 200 (JObj [("token", JStr (create_access_token (u_id u)));
                                     ("name", u_name u)])
                else error 400 "Invalid credentials"
            | _ => Raise AttributeError
            end
        end
    end.
Proof.
  unfold login. cbv zeta.
  destruct (truthy (get data "email") && truthy (get data "password"));
    simpl; [|reflexivity].
  destruct (email_filter query_operator (get data "email")) as [filter|o];
    simpl; [|reflexivity].
  destruct (find_one filter (users db)) as [u|]; simpl; [|reflexivity].
  destruct (get data "password"); simpl; try reflexivity.
  destruct (checkpw _ _); reflexivity.
Qed.



End AuthFacts.

(** ** The duplicate check of [update_employee] *)

(** C7, amended. For a record the user owns: an update that keeps the
    record's current email does not answer with the conflict error (and
    succeeds when the fields pass validation and the salary fits the
    8-byte integer of the store); an update answers with the conflict
    error only when an employee with another identifier and the same
    [createdBy] has the target email, and, the fields having passed
    validation, whenever there is one; the conflict is reported whether
    or not the identifier matches a document of the user, the duplicate
    check coming before [update_one]. *)
Theorem C7_update_duplicate_email
  (db : DB) (user_id : string) (id : string) (oid : ObjectId)
  (data : dict) (f : fields) :
  email_unique db ->
  read_fields data = Go f ->
  ObjectId_of id = Go oid ->
  let conflict :=
    (Resp 400 (JObj [("error", JStr "Email already exists")]), db) in
  let other_has_email :=
    exists d, In d (employees db) /\ e_id d <> oid /\
              e_createdBy d = user_id /\ e_email d = f_email f in
  (forall e, In e (employees db) -> e_id e = oid ->
             e_createdBy e = user_id -> f_email f = e_email e ->
             update_employee db user_id id data <> conflict /\
             (fields_valid f = true -> salary_fits (f_salary f) = true ->
              fst (update_employee db user_id id data)
              = Resp 200 (JObj [("message", JStr "Updated")]))) /\
  (update_employee db user_id id data = conflict -> other_has_email) /\
  (fields_valid f = true ->
   (update_employee db user_id id data = conflict <-> other_has_email) /\
   (other_has_email ->
    find_one (owned oid user_id) (employees db) = None ->
    update_employee db user_id id data = conflict)).
Proof.
  intros Huniq Hread Hoid conflict other_has_email.
  assert (Hfound :
            found (find_one (other_with_email (f_email f) user_id oid)
                     (employees db)) = true <-> other_has_email).
  { rewrite found_find_one_iff. unfold other_has_email.
    split; intros (d & Hd & H); exists d.
    - apply other_with_email_iff in H. tauto.
    - split; [assumption|]. apply other_with_email_iff. tauto. }
  assert (Honly : update_employee db user_id id data = conflict -> other_has_email).
  { rewrite <- Hfound, update_employee_unfold, Hread, Hoid.
    destruct (validate_fields f) as [[]|o] eqn:Hval.
    2:{ apply validate_fields_stop in Hval as (_ & msg & -> & Hmsg).
        intros [= ->]. simpl in Hmsg.
        repeat (destruct Hmsg as [Hmsg | Hmsg]; [discriminate Hmsg|]).
        destruct Hmsg. }
    destruct (found _); [reflexivity|].
    destruct (py_int (f_salary f)) as [n|]; [|discriminate].
    destruct (int64 n); [|discriminate].
    destruct (find_one (owned oid user_id) (employees db)); discriminate. }
  assert (Hiff : fields_valid f = true ->
                 (update_employee db user_id id data = conflict <-> other_has_email)).
  { intro Hvalid. split; [exact Honly|].
    intro H. apply Hfound in H.
    apply validate_fields_go in Hvalid.
    rewrite update_employee_unfold, Hread, Hvalid, Hoid, H. reflexivity. }
  split; [|split; [exact Honly|]].
  - intros e He Hid Hby Hemail.
    assert (Hno : ~ other_has_email).
    { intros (d & Hd & Hdid & Hdby & Hdemail). apply Hdid.
      rewrite <- Hid. apply Huniq; congruence. }
    split; [intro H; apply Hno, Honly, H|].
    intros Hvalid Hfit. unfold salary_fits in Hfit.
    destruct (py_int (f_salary f)) as [n|] eqn:Hn; [|discriminate Hfit].
    apply validate_fields_go in Hvalid.
    rewrite update_employee_unfold, Hread, Hvalid, Hoid, Hn, Hfit.
    destruct (found _) eqn:E; [exfalso; apply Hno, Hfound; reflexivity|].
    destruct (find_one (owned oid user_id) (employees db)) eqn:Hown;
      [reflexivity|].
    exfalso.
    assert (Howned : owned oid user_id e = true) by (apply owned_iff; auto).
    rewrite (proj1 (find_one_none _ _) Hown e He) in Howned. discriminate.
  - intro Hvalid. split; [exact (Hiff Hvalid)|].
    intros H _. apply (Hiff Hvalid), H.
Qed.

(** ** Error responses *)

Ltac answers_error :=
  right; eexists _, _;
  split; [reflexivity | split; [reflexivity | split; [reflexivity | simpl; tauto]]].

Ltac answers_ok := left; auto.

Lemma validate_fields_answers f o classes :
  validate_fields f = Stop o -> In ValidationError classes ->
  answers_in classes o.
Proof.
  intros H Hin. apply validate_fields_stop in H as (_ & msg & -> & Hmsg).
  simpl in Hmsg.
  right. exists msg, ValidationError.
  split; [reflexivity|].
  split; [|split; [reflexivity | assumption]].
  repeat (destruct Hmsg as [<- | Hmsg]; [reflexivity|]). destruct Hmsg.
Qed.

Lemma create_employee_answers db user_id data new_id :
  answers_in [ValidationError; ConflictError]
    (fst (create_employee db user_id data new_id)).
Proof.
  rewrite create_employee_unfold.
  destruct (read_fields data) as [f|o] eqn:Hread.
  2:{ apply read_fields_stop in Hread as ->. exact I. }
  destruct (validate_fields f) as [[]|o] eqn:Hval.
  2:{ eapply validate_fields_answers; [eassumption | simpl; auto]. }
  destruct (found _); [answers_error|].
  destruct (py_int (f_salary f)) as [n|]; [|exact I].
  destruct (int64 n); [answers_ok | exact I].
Qed.

Lemma update_employee_answers db user_id id data :
  answers_in [ValidationError; ConflictError; ForbiddenError]
    (fst (update_employee db user_id id data)).
Proof.
  rewrite update_employee_unfold.
  destruct (read_fields data) as [f|o] eqn:Hread.
  2:{ apply read_fields_stop in Hread as ->. exact I. }
  destruct (validate_fields f) as [[]|o] eqn:Hval.
  2:{ eapply validate_fields_answers; [eassumption | simpl; auto]. }
  destruct (ObjectId_of_cases id) as [[oid ->] | ->]; [|exact I].
  destruct (found _); [answers_error|].
  destruct (py_int (f_salary f)) as [n|]; [|exact I].
  destruct (int64 n); [|exact I].
  destruct (find_one _ _); [answers_ok | answers_error].
Qed.

Lemma delete_employee_answers db user_id id :
  answers_in [ForbiddenError] (fst (delete_employee db user_id id)).
Proof.
  rewrite delete_employee_unfold.
  destruct (ObjectId_of_cases id) as [[oid ->] | ->]; [|exact I].
  destruct (find_one _ _); [answers_ok | answers_error].
Qed.

Lemma answers_in_status classes o status body :
  answers_in classes o -> o = Resp status body ->
  (status = 200 \/ status = 201 \/ status = 400 \/ status = 403)%nat.
Proof.
  intros H ->. destruct H as [[-> | ->] | (msg & c & _ & _ & -> & _)]; auto.
  destruct c; simpl; auto.
Qed.

Section Responses.
Variable hashpw : bytes -> bytes -> option bytes.
Variable checkpw : bytes -> bytes -> bool.
Variable create_access_token : string -> string.
Variable query_operator : dict -> option (string -> bool).

Lemma register_answers db data salt new_id :
  answers_in [ValidationError; ConflictError]
    (fst (register hashpw db data salt new_id)).
Proof.
  rewrite register_unfold. cbv zeta.
  destruct (negb _); [answers_error|].
  destruct (get data "email") as [ | | | |e| | ]; try exact I.
  destruct (negb (validate_email_format e)); [answers_error|].
  destruct (py_len (get data "password")) as [len|o] eqn:Hlen.
  2:{ destruct (get data "password"); simpl in Hlen;
        try discriminate; injection Hlen as <-; exact I. }
  destruct (negb _); [answers_error|].
  destruct (found _); [answers_error|].
  destruct (get data "password"); try exact I.
  destruct (hashpw _ _); [|exact I].
  destruct (bson_error _); [exact I | answers_ok].
Qed.

Lemma login_answers db data :
  answers_in [ValidationError; AuthError]
    (login checkpw create_access_token query_operator db data).
Proof.
  rewrite login_unfold. cbv zeta.
  destruct (negb _); [answers_error|].
  destruct (email_filter query_operator (get data "email")) as [filter|o] eqn:Hf.
  2:{ unfold email_filter in Hf.
      destruct (get data "email") as [ | | | | | |q]; try discriminate.
      destruct (query_operator q); [discriminate|].
      injection Hf as <-. exact I. }
  destruct (find_one filter (users db)) as [u|]; [|answers_error].
  destruct (get data "password"); try exact I.
  destruct (checkpw _ _); [answers_ok | answers_error].
Qed.

(** C8, amended. Every error response of the six operations has the
    body [{"error": message}] and the status the handlers give the class
    of the message: 400 for a validation error, 400 for a conflict, 400
    for invalid credentials at login, 403 for an update or delete that
    matches no document of the user. Register and create answer only
    with validation and conflict errors, login with validation and
    credential errors, list with none, update with validation, conflict
    and forbidden, delete with forbidden; no handler answers 401. *)
Theorem C8_error_status (db : DB) (user_id id : string) (data : dict)
  (salt : bytes) (new_id : ObjectId) :
  let all :=
    [fst (register hashpw db data salt new_id);
     login checkpw create_access_token query_operator db data;
     fst (create_employee db user_id data new_id);
     get_employees db user_id;
     fst (update_employee db user_id id data);
     fst (delete_employee db user_id id)] in
  answers_in [ValidationError; ConflictError]
    (fst (register hashpw db data salt new_id)) /\
  answers_in [ValidationError; AuthError]
    (login checkpw create_access_token query_operator db data) /\
  answers_in [ValidationError; ConflictError]
    (fst (create_employee db user_id data new_id)) /\
  answers_in [] (get_employees db user_id) /\
  answers_in [ValidationError; ConflictError; ForbiddenError]
    (fst (update_employee db user_id id data)) /\
  answers_in [ForbiddenError] (fst (delete_employee db user_id id)) /\
  forall o status body,
    In o all -> o = Resp status body -> status <> 401%nat.
Proof.
  intro all.
  pose proof (register_answers db data salt new_id) as H1.
  pose proof (login_answers db data) as H2.
  pose proof (create_employee_answers db user_id data new_id) as H3.
  assert (H4 : answers_in [] (get_employees db user_id)) by (left; auto).
  pose proof (update_employee_answers db user_id id data) as H5.
  pose proof (delete_employee_answers db user_id id) as H6.
  repeat (split; [assumption|]).
  intros o status body Hin Ho.
  assert (Hst : (status = 200 \/ status = 201 \/ status = 400 \/ status = 403)%nat).
  { unfold all in Hin. cbn [In] in Hin.
    destruct Hin as [<- | [<- | [<- | [<- | [<- | [<- | []]]]]]];
      (eapply answers_in_status; [|exact Ho]); eassumption. }
  lia.
Qed.

(** C9. When register, create, update or delete does not answer with
    its success message (an error response of any class, or an
    exception), the database it leaves is the database it was given;
    login has no write at all. On the 403 path of update and delete the
    filter matches no document, so [update_one] and [delete_one] return
    the collection as it was. *)
Theorem C9_atomic_on_error (db : DB) (user_id id : string) (data : dict)
  (salt : bytes) (new_id : ObjectId) :
  (forall o db',
      register hashpw db data salt new_id = (o, db') ->
      o <> message 201 "Registered Successfully" -> db' = db) /\
  (forall o db',
      create_employee db user_id data new_id = (o, db') ->
      o <> message 201 "Employee Added" -> db' = db) /\
  (forall o db',
      update_employee db user_id id data = (o, db') ->
      o <> message 200 "Updated" -> db' = db) /\
  (forall o db',
      delete_employee db user_id id = (o, db') ->
      o <> message 200 "Deleted" -> db' = db) /\
  (forall oid set,
      ObjectId_of id = Go oid ->
      (fst (update_employee db user_id id data) = error 403 "Not authorized" \/
       fst (delete_employee db user_id id) = error 403 "Not authorized") ->
      find_one (owned oid user_id) (employees db) = None /\
      update_one (owned oid user_id) set (employees db)
      = (0%nat, employees db) /\
      delete_one (owned oid user_id) (employees db)
      = (0%nat, employees db)).
Proof.
  split; [|split; [|split; [|split]]].
  - intros o db'. rewrite register_unfold. cbv zeta.
    destruct (negb _); [intros [= <- <-]; reflexivity|].
    destruct (get data "email"); try (intros [= <- <-]; reflexivity).
    destruct (negb _); [intros [= <- <-]; reflexivity|].
    destruct (py_len _); [|intros [= <- <-]; reflexivity].
    destruct (negb _); [intros [= <- <-]; reflexivity|].
    destruct (found _); [intros [= <- <-]; reflexivity|].
    destruct (get data "password"); try (intros [= <- <-]; reflexivity).
    destruct (hashpw _ _); [|intros [= <- <-]; reflexivity].
    destruct (bson_error _); [intros [= <- <-]; reflexivity|].
    intros [= <- <-] H. exfalso. apply H. reflexivity.
  - intros o db'. rewrite create_employee_unfold.
    destruct (read_fields data) as [f|]; [|intros [= <- <-]; reflexivity].
    destruct (validate_fields f); [|intros [= <- <-]; reflexivity].
    destruct (found _); [intros [= <- <-]; reflexivity|].
    destruct (py_int _) as [n|]; [|intros [= <- <-]; reflexivity].
    destruct (int64 n); [|intros [= <- <-]; reflexivity].
    intros [= <- <-] H. exfalso. apply H. reflexivity.
  - intros o db'. rewrite update_employee_unfold.
    destruct (read_fields data) as [f|]; [|intros [= <- <-]; reflexivity].
    destruct (validate_fields f); [|intros [= <- <-]; reflexivity].
    destruct (ObjectId_of id); [|intros [= <- <-]; reflexivity].
    destruct (found _); [intros [= <- <-]; reflexivity|].
    destruct (py_int _) as [n|]; [|intros [= <- <-]; reflexivity].
    destruct (int64 n); [|intros [= <- <-]; reflexivity].
    destruct (find_one _ _); [|intros [= <- <-]; reflexivity].
    intros [= <- <-] H. exfalso. apply H. reflexivity.
  - intros o db'. rewrite delete_employee_unfold.
    destruct (ObjectId_of id); [|intros [= <- <-]; reflexivity].
    destruct (find_one _ _); [|intros [= <- <-]; reflexivity].
    intros [= <- <-] H. exfalso. apply H. reflexivity.
  - intros oid set Hoid H.
    assert (Hnone : find_one (owned oid user_id) (employees db) = None).
    { destruct H as [H | H].
      - rewrite update_employee_unfold, Hoid in H.
        destruct (read_fields data) as [f|o] eqn:Hread.
        2:{ apply read_fields_stop in Hread as ->. discriminate H. }
        destruct (validate_fields f) as [[]|o] eqn:Hval.
        2:{ apply validate_fields_stop in Hval as (_ & msg & -> & _).
            discriminate H. }
        destruct (found _); [discriminate H|].
        destruct (py_int _) as [n|]; [|discriminate H].
        destruct (int64 n); [|discriminate H].
        destruct (find_one _ _); [discriminate H | reflexivity].
      - rewrite delete_employee_unfold, Hoid in H.
        destruct (find_one _ _); [discriminate H | reflexivity]. }
    split; [exact Hnone|]. split.
    + destruct (update_one_cases (owned oid user_id) set (employees db))
        as [[_ ->] | (pre & d & post & _ & _ & _ & Hsome & _)];
        [reflexivity | congruence].
    + destruct (delete_one_cases (owned oid user_id) (employees db))
        as [[_ ->] | (pre & d & post & _ & _ & _ & Hsome & _)];
        [reflexivity | congruence].
Qed.

End Responses.

(** ** The identifier in the URL *)

Lemma ObjectId_of_well_formed id :
  well_formed_id id = true -> exists oid, ObjectId_of id = Go oid.
Proof.
  unfold ObjectId_of, well_formed_id. intro H.
  apply andb_true_iff in H as [-> H].
  destruct (fromhex (chars id)); [eauto | discriminate].
Qed.

Lemma ObjectId_of_ill_formed id :
  well_formed_id id = false -> ObjectId_of id = Stop (Raise InvalidId).
Proof.
  unfold ObjectId_of, well_formed_id. intro H.
  destruct (_ =? _)%nat; [|reflexivity].
  destruct (fromhex (chars id)); [discriminate | reflexivity].
Qed.

(** C10, as stated, fails for update: with an identifier outside the
    format and a body that does not pass validation, the validation error
    of the taxonomy is answered and [ObjectId] is never built. *)
Lemma C10_update_bad_id_validation_error :
  well_formed_id "xyz" = false /\
  update_employee demo_db alice "xyz"
    (employee_body "" "annlee@gmail.com" "Sales" "Manager" (JInt 5000))
  = (error 400 "Invalid Name", demo_db).
Proof. split; vm_compute; reflexivity. Qed.

Lemma is_hex_not_space c : Chars.is_hex c = true -> Chars.is_c_space c = false.
Proof.
  destruct c as [[] [] [] [] [] [] [] []]; vm_compute; intro H;
    try reflexivity; discriminate H.
Qed.

Lemma fromhex_hex n : forall l,
  List.length l = (2 * n)%nat -> forallb Chars.is_hex l = true ->
  fromhex l = Some l.
Proof.
  induction n as [|n IH]; intros l Hlen Hall.
  - destruct l; [reflexivity | discriminate Hlen].
  - destruct l as [|c [|d l]]; simpl in Hlen; try lia.
    cbn [forallb] in Hall.
    apply andb_true_iff in Hall as [Hc Hall].
    apply andb_true_iff in Hall as [Hd Hall].
    cbn [fromhex].
    rewrite (is_hex_not_space _ Hc), Hc, Hd, IH by (assumption || lia).
    reflexivity.
Qed.

Lemma string_length_chars s : List.length (chars s) = String.length s.
Proof. induction s as [|c s IH]; simpl; [reflexivity | f_equal; exact IH]. Qed.

(** C10, amended. [delete_employee] builds [ObjectId(id)] before its
    query, [update_employee] builds it after the body has been read and
    validated and before its first query. [ObjectId] takes a text of 24
    characters that [bytes.fromhex] reads, 24 hexadecimal digits among
    them. For such an identifier delete always answers; update answers
    whenever the four text fields of the body are strings and the salary,
    if the fields pass validation, fits the 8-byte integer of the store;
    each answers 403 when its filter matches no document, as it does for
    any identifier that is not 24 lower-case digits once printed. For any
    other identifier delete raises [InvalidId]; update raises [InvalidId]
    when the fields pass validation and answers the 400 validation error
    when they do not. *)
Theorem C10_object_id_precondition (db : DB) (user_id id : string) :
  (well_formed_id id = true ->
   exists oid,
     ObjectId_of id = Go oid /\
     (exists status body,
         fst (delete_employee db user_id id) = Resp status body) /\
     (find_one (owned oid user_id) (employees db) = None ->
      delete_employee db user_id id
      = (Resp 403 (JObj [("error", JStr "Not authorized")]), db)) /\
     (ids_wf db -> canonical oid = false ->
      find_one (owned oid user_id) (employees db) = None) /\
     (forall data f,
         read_fields data = Go f ->
         ((fields_valid f = true -> salary_fits (f_salary f) = true) ->
          exists status body,
            fst (update_employee db user_id id data) = Resp status body) /\
         (fields_valid f = true -> salary_fits (f_salary f) = true ->
          find_one (other_with_email (f_email f) user_id oid) (employees db)
          = None ->
          find_one (owned oid user_id) (employees db) = None ->
          update_employee db user_id id data
          = (Resp 403 (JObj [("error", JStr "Not authorized")]), db)))) /\
  (well_formed_id id = false ->
   delete_employee db user_id id = (Raise InvalidId, db) /\
   (forall data f,
       read_fields data = Go f ->
       (fields_valid f = true ->
        update_employee db user_id id data = (Raise InvalidId, db)) /\
       (fields_valid f = false ->
        exists msg,
          update_employee db user_id id data
          = (Resp 400 (JObj [("error", JStr msg)]), db)))) /\
  (well_formed_id id = true <->
   String.length id = 24%nat /\ exists ds, fromhex (chars id) = Some ds) /\
  (String.length id = 24%nat -> forallb Chars.is_hex (chars id) = true ->
   well_formed_id id = true).
Proof.
  split; [|split; [|split]].
  - intro Hid. destruct (ObjectId_of_well_formed id Hid) as [oid Hoid].
    exists oid. split; [exact Hoid|]. split; [|split; [|split]].
    + rewrite delete_employee_unfold, Hoid.
      destruct (find_one _ _); unfold error, message; simpl; eauto.
    + intro Hnone. rewrite delete_employee_unfold, Hoid, Hnone. reflexivity.
    + intros [_ Hcan] Hoidc. apply find_one_none. intros x Hx.
      destruct (owned oid user_id x) eqn:E; [exfalso | reflexivity].
      apply owned_iff in E as [E _]. rewrite Forall_forall in Hcan.
      specialize (Hcan x Hx). congruence.
    + intros data f Hread. split.
      * intro Hfit. rewrite update_employee_unfold, Hread, Hoid.
        destruct (validate_fields f) as [[]|o] eqn:Hval.
        2:{ apply validate_fields_stop in Hval as (_ & msg & -> & _).
            unfold error; simpl; eauto. }
        apply validate_fields_go in Hval. specialize (Hfit Hval).
        unfold salary_fits in Hfit.
        destruct (py_int (f_salary f)) as [n|]; [|discriminate Hfit].
        rewrite Hfit.
        destruct (found _); [unfold error; simpl; eauto|].
        destruct (find_one _ _); unfold error, message; simpl; eauto.
      * intros Hval Hfit Hother Hnone.
        rewrite update_employee_unfold, Hread, Hoid, Hother, Hnone.
        apply validate_fields_go in Hval as Hgo. rewrite Hgo. simpl.
        unfold salary_fits in Hfit.
        destruct (py_int (f_salary f)) as [n|]; [|discriminate Hfit].
        rewrite Hfit. reflexivity.
  - intro Hid. apply ObjectId_of_ill_formed in Hid. split.
    + rewrite delete_employee_unfold, Hid. reflexivity.
    + intros data f Hread. split; intro Hval.
      * rewrite update_employee_unfold, Hread, Hid.
        apply validate_fields_go in Hval. rewrite Hval. reflexivity.
      * rewrite update_employee_unfold, Hread.
        destruct (validate_fields f) as [[]|o] eqn:Hgo.
        -- apply validate_fields_go in Hgo. congruence.
        -- apply validate_fields_stop in Hgo as (_ & msg & -> & _).
           exists msg. reflexivity.
  - unfold well_formed_id. rewrite andb_true_iff, Nat.eqb_eq.
    destruct (fromhex (chars id)) as [ds|].
    + split; intros [H _]; (split; [exact H | eauto]).
    + split; [intros [_ H]; discriminate H|].
      intros [_ [ds H]]. discriminate H.
  - intros Hlen Hhex. unfold well_formed_id.
    rewrite (proj2 (Nat.eqb_eq _ _) Hlen).
    rewrite (fromhex_hex 12); [reflexivity | | exact Hhex].
    rewrite string_length_chars. exact Hlen.
Qed.

(** ** The claims on the example store *)

(** C8, as stated, fails: a login with an unknown email is a credential
    error, which the taxonomy answers with 401, and the handler answers
    400. *)
Lemma C8_login_invalid_credentials_400 :
  login demo_checkpw demo_token demo_operator demo_db
    [("email", JStr "nobody1@gmail.com"); ("password", JStr "secret1")]
  = Resp 400 (JObj [("error", JStr "Invalid credentials")]) /\
  class_of "Invalid credentials" = Some AuthError /\
  taxonomy_status AuthError = 401%nat /\
  400%nat <> taxonomy_status AuthError.
Proof.
  split; [vm_compute; reflexivity|].
  split; [reflexivity|].
  split; [reflexivity | discriminate].
Qed.

Lemma demo_db_ids_wf : ids_wf demo_db.
Proof.
  split.
  - simpl. repeat constructor; simpl; intuition discriminate.
  - repeat constructor.
Qed.

Lemma demo_db_email_unique : email_unique demo_db.
Proof.
  intros e1 e2 H1 H2 Hemail Hby. simpl in H1, H2.
  destruct H1 as [<- | [<- | [<- | []]]];
    destruct H2 as [<- | [<- | [<- | []]]];
    try reflexivity; try discriminate Hby; discriminate Hemail.
Qed.

Lemma C1_owner_isolation_witness :
  (ids_wf demo_db /\ In ann (employees demo_db) /\
   e_createdBy ann = alice /\ alice <> bob) /\
  delete_employee demo_db bob (e_id ann)
  = (error 403 "Not authorized", demo_db) /\
  update_employee demo_db bob (e_id ann)
    (employee_body "Ann Lee" "annlee@gmail.com" "Sales" "Director" (JInt 1))
  = (error 403 "Not authorized", demo_db).
Proof.
  assert (Hin : In ann (employees demo_db)) by (simpl; auto).
  assert (Hne : alice <> bob) by discriminate.
  split;
    [split; [apply demo_db_ids_wf
            | split; [exact Hin | split; [reflexivity | exact Hne]]]|].
  destruct (C1_owner_isolation demo_db ann alice bob
              demo_db_ids_wf Hin eq_refl Hne) as (_ & _ & Hupd & Hdel).
  split.
  - apply Hdel. reflexivity.
  - eapply (Hupd (e_id ann)); [reflexivity | reflexivity | | | ];
      vm_compute; reflexivity.
Defined.

Lemma C2_crud_round_trip_witness :
  create_employee demo_db alice cy_body cy_id
  = (Resp 201 (JObj [("message", JStr "Employee Added")]),
     Db (users demo_db)
       (employees demo_db ++
        [Employee cy_id "Cy Dee" "cydee1@gmail.com" "Ops" "Lead" 1200 alice])) /\
  update_employee
    (Db (users demo_db)
       (employees demo_db ++
        [Employee cy_id "Cy Dee" "cydee1@gmail.com" "Ops" "Lead" 1200 alice]))
    alice cy_id cy_body'
  = (Resp 200 (JObj [("message", JStr "Updated")]),
     Db (users demo_db)
       (employees demo_db ++
        [Employee cy_id "Cy Dee" "cydee2@gmail.com" "Ops" "Head" 1500 alice])) /\
  delete_employee
    (Db (users demo_db)
       (employees demo_db ++
        [Employee cy_id "Cy Dee" "cydee2@gmail.com" "Ops" "Head" 1500 alice]))
    alice cy_id
  = (Resp 200 (JObj [("message", JStr "Deleted")]), demo_db).
Proof.
  assert (Hfresh : ~ In cy_id (map e_id (employees demo_db)))
    by (simpl; intuition discriminate).
  destruct (C2_crud_round_trip demo_db alice cy_id
              " Cy Dee " "cydee1@gmail.com" "Ops" "Lead " (JStr "1200") 1200
              "Cy Dee" "cydee2@gmail.com" "Ops" "Head" (JInt 1500) 1500
              Hfresh eq_refl eq_refl eq_refl eq_refl eq_refl eq_refl eq_refl
              eq_refl eq_refl)
    as ((Hc & _) & (Hu & _) & (Hd & _)).
  split; [exact Hc | split; [exact Hu | exact Hd]].
Defined.

Lemma C3_salary_validation_witness :
  create_employee demo_db alice cy_body cy_id
  = (message 201 "Employee Added",
     set_employees demo_db
       (employees demo_db ++
        [Employee cy_id "Cy Dee" "cydee1@gmail.com" "Ops" "Lead" 1200 alice])) /\
  exists n doc,
    py_int (get cy_body "salary") = Some n /\ (0 < n <= 2 ^ 63 - 1)%Z /\
    employees
      (set_employees demo_db
         (employees demo_db ++
          [Employee cy_id "Cy Dee" "cydee1@gmail.com" "Ops" "Lead" 1200 alice]))
    = employees demo_db ++ [doc] /\
    e_salary doc = n.
Proof.
  assert (H : create_employee demo_db alice cy_body cy_id
              = (message 201 "Employee Added",
                 set_employees demo_db
                   (employees demo_db ++
                    [Employee cy_id "Cy Dee" "cydee1@gmail.com" "Ops" "Lead"
                       1200 alice])))
    by (vm_compute; reflexivity).
  split; [exact H|].
  destruct C3_salary_validation as (_ & _ & _ & _ & _ & _ & _ & _ & Hstored).
  exact (Hstored _ _ _ _ _ H).
Defined.




(** C7, as stated, fails in one direction: another employee of the user
    has the target email, yet the update answers with the validation
    error, the name being too short. *)
Lemma C7_invalid_fields_before_conflict :
  In ray (employees demo_db) /\ e_createdBy ray = bob /\
  In kim (employees demo_db) /\ e_id kim <> e_id ray /\
  e_createdBy kim = bob /\ e_email kim = "kimpoe@gmail.com" /\
  update_employee demo_db bob (e_id ray)
    (employee_body "K" "kimpoe@gmail.com" "Ops" "Clerk" (JInt 3000))
  = (error 400 "Invalid Name", demo_db) /\
  error 400 "Invalid Name" <> error 400 "Email already exists".
Proof.
  split; [simpl; auto|]. split; [reflexivity|].
  split; [simpl; auto|]. split; [discriminate|].
  split; [reflexivity|]. split; [reflexivity|].
  split; [vm_compute; reflexivity | discriminate].
Qed.

Lemma C7_update_duplicate_email_witness :
  email_unique demo_db /\
  fst (update_employee demo_db bob (e_id ray)
         (employee_body "Bob Ray" "bobray@gmail.com" "Sales" "Lead" (JInt 4200)))
  = message 200 "Updated".
Proof.
  split; [exact demo_db_email_unique|].
  destruct (C7_update_duplicate_email demo_db bob (e_id ray) (e_id ray)
              (employee_body "Bob Ray" "bobray@gmail.com" "Sales" "Lead"
                 (JInt 4200))
              (stripped "Bob Ray" "bobray@gmail.com" "Sales" "Lead" (JInt 4200))
              demo_db_email_unique eq_refl eq_refl) as (Hkeep & _).
  assert (Hin : In ray (employees demo_db)) by (simpl; auto).
  destruct (Hkeep ray Hin eq_refl eq_refl eq_refl) as [_ Hok].
  apply Hok; reflexivity.
Defined.

Lemma C8_error_status_witness :
  answers_in [ValidationError; AuthError]
    (login demo_checkpw demo_token demo_operator demo_db unknown_login) /\
  answers_in [ForbiddenError] (fst (delete_employee demo_db bob (e_id ann))).
Proof.
  destruct (C8_error_status demo_hashpw demo_checkpw demo_token demo_operator
              demo_db bob (e_id ann) unknown_login demo_salt cy_id)
    as (_ & Hlogin & _ & _ & _ & Hdelete & _).
  split; [exact Hlogin | exact Hdelete].
Defined.

Lemma C9_atomic_on_error_witness :
  create_employee demo_db alice
    (employee_body "Ann Lee" "annlee@gmail.com" "Sales" "Manager" (JInt 1))
    cy_id
  = (error 400 "Email already exists", demo_db) /\
  snd (create_employee demo_db alice
         (employee_body "Ann Lee" "annlee@gmail.com" "Sales" "Manager" (JInt 1))
         cy_id) = demo_db.
Proof.
  split; [vm_compute; reflexivity|].
  destruct (C9_atomic_on_error demo_hashpw demo_db alice (e_id ann)
              (employee_body "Ann Lee" "annlee@gmail.com" "Sales" "Manager"
                 (JInt 1)) demo_salt cy_id) as (_ & Hcreate & _).
  apply (Hcreate (error 400 "Email already exists")).
  - vm_compute; reflexivity.
  - discriminate.
Defined.

Lemma C10_object_id_precondition_witness :
  well_formed_id "not-an-object-id" = false /\
  delete_employee demo_db alice "not-an-object-id" = (Raise InvalidId, demo_db) /\
  well_formed_id "65A000000000000000000009" = true /\
  delete_employee demo_db alice "65A000000000000000000009"
  = (Resp 403 (JObj [("error", JStr "Not authorized")]), demo_db) /\
  well_formed_id "65a00000000000000000  01" = true /\
  delete_employee demo_db alice "65a00000000000000000  01"
  = (Resp 403 (JObj [("error", JStr "Not authorized")]), demo_db).
Proof.
  split; [reflexivity|]. split.
  - apply (C10_object_id_precondition demo_db alice "not-an-object-id").
    reflexivity.
  - split; [reflexivity|]. split.
    + destruct (C10_object_id_precondition demo_db alice
                  "65A000000000000000000009") as (Hok & _).
      destruct (Hok eq_refl) as (oid & Hoid & _ & Hdel & _).
      apply Hdel. vm_compute in Hoid. injection Hoid as <-. reflexivity.
    + split; [reflexivity|].
      destruct (C10_object_id_precondition demo_db alice
                  "65a00000000000000000  01") as (Hok & _).
      destruct (Hok eq_refl) as (oid & Hoid & _ & Hdel & Hshort & _).
      apply Hdel, Hshort; [exact demo_db_ids_wf|].
      vm_compute in Hoid. injection Hoid as <-. reflexivity.
Defined.

(** * Further properties of the code *)

(** ** Names and text fields *)

Lemma length_chars s : List.length (chars s) = String.length s.
Proof. induction s as [|c s IH]; simpl; [reflexivity | f_equal; exact IH]. Qed.

Lemma chars_text l : chars (text l) = l.
Proof. apply list_ascii_of_string_of_list_ascii. Qed.

Lemma text_chars s : text (chars s) = s.
Proof. apply string_of_list_ascii_of_string. Qed.

Lemma chars_append a b : chars (a ++ b)%string = chars a ++ chars b.
Proof. induction a as [|c a IH]; simpl; [reflexivity | f_equal; exact IH]. Qed.

Lemma is_name_char_iff c : Chars.is_name_char c = true <-> name_char c.
Proof.
  unfold Chars.is_name_char, name_char, Chars.is_letter.
  rewrite !orb_true_iff, Ascii.eqb_eq. tauto.
Qed.

(** X1. [validate_name] and [validate_text_field] are one rule: a text is
    accepted exactly when it has 2 to 50 characters, each a letter
    [A-Z a-z] or a space; so digits, hyphens and apostrophes are refused,
    and a text of spaces only is accepted. *)
Theorem X1_validate_name_rule (s : string) :
  (validate_name s = true <->
   (2 <= String.length s <= 50)%nat /\ Forall name_char (chars s)) /\
  validate_text_field s = validate_name s.
Proof.
  split; [|reflexivity].
  unfold validate_name, name_pattern.
  rewrite ReFacts.fullmatch_Matches, ReFacts.Matches_rep, length_chars.
  rewrite forallb_forall, Forall_forall.
  split; intros [Hlen Hall]; (split; [lia|]);
    intros c Hc; apply is_name_char_iff, Hall, Hc.
Qed.

(** ** [str.strip] *)

Lemma lstrip_idempotent l : lstrip (lstrip l) = lstrip l.
Proof.
  induction l as [|c l IH]; simpl; [reflexivity|].
  destruct (Chars.is_space c) eqn:E; [exact IH|]. simpl. rewrite E. reflexivity.
Qed.

Lemma lstrip_head l :
  lstrip l = [] \/ exists c l', lstrip l = c :: l' /\ Chars.is_space c = false.
Proof.
  induction l as [|c l IH]; simpl; [auto|].
  destruct (Chars.is_space c) eqn:E; [exact IH | eauto].
Qed.

Lemma lstrip_fixed c l : Chars.is_space c = false -> lstrip (c :: l) = c :: l.
Proof. intro H. simpl. rewrite H. reflexivity. Qed.

Lemma lstrip_spaces ws l :
  forallb Chars.is_space ws = true -> lstrip (ws ++ l) = lstrip l.
Proof.
  induction ws as [|c ws IH]; simpl; [reflexivity|].
  intro H. apply andb_true_iff in H as [-> H]. auto.
Qed.

Lemma lstrip_snoc l c :
  Chars.is_space c = false -> lstrip (l ++ [c]) = lstrip l ++ [c].
Proof.
  intro Hc. induction l as [|x l IH]; simpl; [rewrite Hc; reflexivity|].
  destruct (Chars.is_space x); [exact IH | reflexivity].
Qed.

Lemma rstrip_cons c l :
  Chars.is_space c = false -> rstrip (c :: l) = c :: rstrip l.
Proof.
  intro Hc. unfold rstrip. simpl.
  rewrite (lstrip_snoc _ _ Hc), rev_app_distr. reflexivity.
Qed.

Lemma rstrip_idempotent l : rstrip (rstrip l) = rstrip l.
Proof. unfold rstrip. rewrite rev_involutive, lstrip_idempotent. reflexivity. Qed.

Lemma rstrip_spaces l ws :
  forallb Chars.is_space ws = true -> rstrip (l ++ ws) = rstrip l.
Proof.
  intro H. unfold rstrip. rewrite rev_app_distr, lstrip_spaces; [reflexivity|].
  rewrite forallb_forall in *. intros c Hc. apply H, in_rev, Hc.
Qed.

Lemma lstrip_all_spaces ws :
  forallb Chars.is_space ws = true -> lstrip ws = [].
Proof.
  intro H. rewrite <- (app_nil_r ws). rewrite lstrip_spaces; [reflexivity | exact H].
Qed.

(** What is left of trailing blanks after [lstrip] is still blank. *)
Lemma lstrip_app_spaces l ws :
  forallb Chars.is_space ws = true ->
  exists ws', forallb Chars.is_space ws' = true /\
              lstrip (l ++ ws) = lstrip l ++ ws'.
Proof.
  intro H. induction l as [|c l IH]; simpl.
  - exists []. rewrite (lstrip_all_spaces _ H). auto.
  - destruct (Chars.is_space c); [exact IH|]. exists ws. auto.
Qed.

Lemma strip_chars_fixed l :
  lstrip (rstrip (lstrip l)) = rstrip (lstrip l) /\
  rstrip (rstrip (lstrip l)) = rstrip (lstrip l).
Proof.
  split; [|apply rstrip_idempotent].
  destruct (lstrip_head l) as [-> | (c & l' & -> & Hc)]; [reflexivity|].
  rewrite (rstrip_cons _ _ Hc). apply lstrip_fixed, Hc.
Qed.

Lemma strip_idempotent s : strip (strip s) = strip s.
Proof.
  unfold strip. rewrite chars_text.
  destruct (strip_chars_fixed (chars s)) as [-> ->]. reflexivity.
Qed.

Lemma strip_padded (a s b : string) :
  forallb Chars.is_space (chars a) = true ->
  forallb Chars.is_space (chars b) = true ->
  rstrip (lstrip (chars (a ++ s ++ b)%string)) = rstrip (lstrip (chars s)).
Proof.
  intros Ha Hb. rewrite !chars_append, (lstrip_spaces _ _ Ha).
  destruct (lstrip_app_spaces (chars s) (chars b) Hb) as (ws & Hws & ->).
  apply rstrip_spaces, Hws.
Qed.

(** ** Skipping a class of characters *)

Section Skip.
Variable blank : ascii -> bool.

Lemma lskip_fixed c l : blank c = false -> lskip blank (c :: l) = c :: l.
Proof. intro H. simpl. rewrite H. reflexivity. Qed.

Lemma lskip_spaces ws l :
  forallb blank ws = true -> lskip blank (ws ++ l) = lskip blank l.
Proof.
  induction ws as [|c ws IH]; simpl; [reflexivity|].
  intro H. apply andb_true_iff in H as [-> H]. auto.
Qed.

Lemma lskip_snoc l c :
  blank c = false -> lskip blank (l ++ [c]) = lskip blank l ++ [c].
Proof.
  intro Hc. induction l as [|x l IH]; simpl; [rewrite Hc; reflexivity|].
  destruct (blank x); [exact IH | reflexivity].
Qed.

Lemma rskip_cons c l :
  blank c = false -> rskip blank (c :: l) = c :: rskip blank l.
Proof.
  intro Hc. unfold rskip. simpl.
  rewrite (lskip_snoc _ _ Hc), rev_app_distr. reflexivity.
Qed.

Lemma rskip_spaces l ws :
  forallb blank ws = true -> rskip blank (l ++ ws) = rskip blank l.
Proof.
  intro H. unfold rskip. rewrite rev_app_distr, lskip_spaces; [reflexivity|].
  rewrite forallb_forall in *. intros c Hc. apply H, in_rev, Hc.
Qed.

Lemma lskip_all_spaces ws : forallb blank ws = true -> lskip blank ws = [].
Proof.
  intro H. rewrite <- (app_nil_r ws). rewrite lskip_spaces; [reflexivity | exact H].
Qed.

Lemma lskip_app_spaces l ws :
  forallb blank ws = true ->
  exists ws', forallb blank ws' = true /\
              lskip blank (l ++ ws) = lskip blank l ++ ws'.
Proof.
  intro H. induction l as [|c l IH]; simpl.
  - exists []. rewrite (lskip_all_spaces _ H). auto.
  - destruct (blank c); [exact IH|]. exists ws. auto.
Qed.

Lemma skip_padded (a s b : list ascii) :
  forallb blank a = true -> forallb blank b = true ->
  rskip blank (lskip blank (a ++ s ++ b)) = rskip blank (lskip blank s).
Proof.
  intros Ha Hb. rewrite (lskip_spaces _ _ Ha).
  destruct (lskip_app_spaces s b Hb) as (ws & Hws & ->).
  apply rskip_spaces, Hws.
Qed.

End Skip.

(** ** Salaries given as strings *)

Lemma scan_digits_all ds :
  forallb Chars.is_digit ds = true -> scan_digits ds true = Some ds.
Proof.
  induction ds as [|c ds IH]; simpl; [reflexivity|].
  intro H. apply andb_true_iff in H as [-> H]. rewrite (IH H). reflexivity.
Qed.

Lemma scan_digits_start ds :
  ds <> [] -> forallb Chars.is_digit ds = true ->
  scan_digits ds false = Some ds.
Proof.
  destruct ds as [|c ds]; [congruence|]. simpl. intros _ H.
  apply andb_true_iff in H as [-> H]. rewrite (scan_digits_all _ H). reflexivity.
Qed.

Lemma digit_value_nonneg c : (0 <= digit_value c)%Z.
Proof. unfold digit_value. lia. Qed.

Lemma digit_value_zero c :
  Chars.is_digit c = true -> (digit_value c = 0%Z <-> c = "0"%char).
Proof.
  destruct c as [[] [] [] [] [] [] [] []]; vm_compute; intro H;
    try discriminate H; split; intro E; try reflexivity; discriminate E.
Qed.

Lemma fold_decimal_nonneg ds : forall acc,
  (0 <= acc)%Z ->
  (0 <= fold_left (fun a c => 10 * a + digit_value c) ds acc)%Z.
Proof.
  induction ds as [|c ds IH]; cbn [fold_left]; intros acc Hacc; [assumption|].
  apply IH. pose proof (digit_value_nonneg c). lia.
Qed.

Lemma fold_decimal_zero ds : forall acc,
  (0 <= acc)%Z ->
  (fold_left (fun a c => 10 * a + digit_value c) ds acc = 0 <->
   acc = 0 /\ forall c, In c ds -> digit_value c = 0)%Z.
Proof.
  induction ds as [|c ds IH]; cbn [fold_left In]; intros acc Hacc.
  - split; [intro H; split; [assumption | intros c []] | tauto].
  - pose proof (digit_value_nonneg c) as Hc.
    rewrite IH by lia. split.
    + intros [H0 Hall]. split; [lia|].
      intros x [<- | Hx]; [lia | auto].
    + intros [-> Hall]. split; [rewrite (Hall c); auto; lia | auto].
Qed.

Lemma decimal_value_nonneg ds : (0 <= decimal_value ds)%Z.
Proof. apply fold_decimal_nonneg. lia. Qed.

Lemma decimal_value_pos ds :
  forallb Chars.is_digit ds = true ->
  ((0 < decimal_value ds)%Z <-> exists c, In c ds /\ c <> "0"%char).
Proof.
  intro Hd. rewrite forallb_forall in Hd.
  pose proof (decimal_value_nonneg ds) as Hnn.
  pose proof (fold_decimal_zero ds 0 (Z.le_refl 0)) as Hz.
  fold (decimal_value ds) in Hz. split.
  - intro Hpos.
    destruct (existsb (fun c => negb (Ascii.eqb c "0")) ds) eqn:E.
    + apply existsb_exists in E as (c & Hc & Hne). exists c. split; [assumption|].
      apply negb_true_iff, Ascii.eqb_neq in Hne. exact Hne.
    + exfalso. assert (decimal_value ds = 0%Z); [|lia].
      apply Hz. split; [reflexivity|]. intros c Hc.
      apply digit_value_zero; [auto|].
      destruct (Ascii.eqb c "0") eqn:Ec; [apply Ascii.eqb_eq; exact Ec|].
      assert (existsb (fun c => negb (Ascii.eqb c "0")) ds = true); [|congruence].
      apply existsb_exists. exists c. rewrite Ec. auto.
  - intros (c & Hc & Hne).
    destruct (Z.eq_dec (decimal_value ds) 0) as [E | E]; [exfalso | lia].
    apply Hz in E as [_ Hall]. apply Hne.
    apply digit_value_zero; auto.
Qed.

Lemma parse_unsigned_nonneg l n : parse_unsigned l = Some n -> (0 <= n)%Z.
Proof.
  unfold parse_unsigned. destruct (scan_digits l false) as [ds|]; [|discriminate].
  destruct (_ <=? _)%nat; [|discriminate].
  intros [= <-]. apply decimal_value_nonneg.
Qed.

(** The sign dispatch of [int_of_str] on a text that starts with a
    digit. *)
Lemma unsigned_dispatch c l :
  Chars.is_digit c = true ->
  match c :: l with
  | "-"%char :: l' => option_map Z.opp (parse_unsigned l')
  | "+"%char :: l' => parse_unsigned l'
  | l0 => parse_unsigned l0
  end = parse_unsigned (c :: l).
Proof.
  destruct c as [[] [] [] [] [] [] [] []]; intro H;
    try reflexivity; discriminate H.
Qed.

Lemma is_digit_not_space c :
  Chars.is_digit c = true -> Chars.is_int_space c = false.
Proof.
  destruct c as [[] [] [] [] [] [] [] []]; vm_compute; intro H;
    try reflexivity; discriminate H.
Qed.

Lemma digits_stripped ds :
  forallb Chars.is_digit ds = true ->
  rskip Chars.is_int_space (lskip Chars.is_int_space ds) = ds.
Proof.
  intro H.
  assert (Hl : forall l, forallb Chars.is_digit l = true ->
                         lskip Chars.is_int_space l = l).
  { intros [|c l] Hd; [reflexivity|]. simpl in Hd.
    apply andb_true_iff in Hd as [Hc _].
    apply lskip_fixed, is_digit_not_space, Hc. }
  rewrite (Hl _ H). unfold rskip. rewrite Hl, rev_involutive; [reflexivity|].
  rewrite forallb_forall in *. intros c Hc. apply H, in_rev, Hc.
Qed.

(** X2. A salary given as a string of decimal digits is read at its
    positional value, leading zeros allowed, as long as it has at most
    4300 digits; it is accepted exactly when it is that short and one
    of its digits is not zero. *)
Theorem X2_salary_digit_string (ds : list ascii) :
  ds <> [] -> forallb Chars.is_digit ds = true ->
  py_int (JStr (text ds))
  = (if (List.length ds <=? int_max_str_digits)%nat
     then Some (decimal_value ds) else None) /\
  (validate_salary (JStr (text ds)) = true <->
   (List.length ds <= int_max_str_digits)%nat /\
   exists c, In c ds /\ c <> "0"%char).
Proof.
  intros Hne Hd.
  assert (Hint : py_int (JStr (text ds))
                 = if (List.length ds <=? int_max_str_digits)%nat
                   then Some (decimal_value ds) else None).
  { simpl. unfold int_of_str. rewrite chars_text, (digits_stripped _ Hd).
    destruct ds as [|c ds]; [congruence|].
    rewrite unsigned_dispatch
      by (simpl in Hd; apply andb_true_iff in Hd as [Hc _]; exact Hc).
    unfold parse_unsigned. rewrite (scan_digits_start _ Hne Hd). reflexivity. }
  split; [exact Hint|].
  unfold validate_salary. rewrite Hint.
  destruct (List.length ds <=? int_max_str_digits)%nat eqn:E.
  - apply Nat.leb_le in E. rewrite Z.ltb_lt, (decimal_value_pos _ Hd). tauto.
  - apply Nat.leb_gt in E. split; [discriminate | intros [H _]; lia].
Qed.

Section NoLiteral.
Variable c : ascii.
Hypothesis Hdigit : Chars.is_digit c = false.
Hypothesis Hunderscore : Ascii.eqb c "_" = false.
Hypothesis Hminus : Ascii.eqb c "-" = false.
Hypothesis Hplus : Ascii.eqb c "+" = false.

Lemma scan_digits_bad_end l seen : scan_digits (l ++ [c]) seen = None.
Proof.
  revert seen. induction l as [|x l IH]; intro seen; simpl.
  - rewrite Hdigit, Hunderscore. reflexivity.
  - destruct (Chars.is_digit x); [rewrite IH; reflexivity|].
    destruct (Ascii.eqb x "_"); [|reflexivity].
    destruct seen; [apply IH | reflexivity].
Qed.

Lemma parse_unsigned_bad_end l : parse_unsigned (l ++ [c]) = None.
Proof. unfold parse_unsigned. rewrite scan_digits_bad_end. reflexivity. Qed.

Lemma literal_bad_end l :
  match l ++ [c] with
  | "-"%char :: l' => option_map Z.opp (parse_unsigned l')
  | "+"%char :: l' => parse_unsigned l'
  | l' => parse_unsigned l'
  end = None.
Proof.
  destruct l as [|x l].
  - pose proof (parse_unsigned_bad_end []) as H. simpl app in *.
    destruct c as [[] [] [] [] [] [] [] []];
      try discriminate Hminus; try discriminate Hplus; exact H.
  - pose proof (parse_unsigned_bad_end l) as H.
    pose proof (parse_unsigned_bad_end (x :: l)) as H'. simpl app in *.
    destruct x as [[] [] [] [] [] [] [] []];
      try exact H'; rewrite H; reflexivity.
Qed.

End NoLiteral.

(** X3. The blanks that [int] skips around a salary given as a string
    (TAB to CR, SPACE, and NEL and NBSP above ASCII) do not count: the
    text is read, and accepted or refused, as the text without them. The
    separators FS to US, which [str.strip] removes, are not among them:
    a salary text that ends with one is refused. *)
Theorem X3_salary_ignores_blanks (a s b : string) :
  forallb Chars.is_int_space (chars a) = true ->
  forallb Chars.is_int_space (chars b) = true ->
  py_int (JStr (a ++ s ++ b)) = py_int (JStr s) /\
  validate_salary (JStr (a ++ s ++ b)) = validate_salary (JStr s) /\
  (forall c t, (28 <= Chars.code c <= 31)%nat ->
               Chars.is_space c = true /\
               py_int (JStr (t ++ String c "")) = None /\
               validate_salary (JStr (t ++ String c "")) = false).
Proof.
  intros Ha Hb.
  assert (H : py_int (JStr (a ++ s ++ b)) = py_int (JStr s)).
  { simpl. unfold int_of_str.
    rewrite !chars_append, (skip_padded _ _ _ _ Ha Hb). reflexivity. }
  split; [exact H|]. split; [unfold validate_salary; rewrite H; reflexivity|].
  intros c t Hc.
  assert (Hcases : c = "028"%char \/ c = "029"%char \/ c = "030"%char
                   \/ c = "031"%char).
  { rewrite <- (ascii_nat_embedding c). unfold Chars.code in Hc.
    assert (E : (nat_of_ascii c = 28 \/ nat_of_ascii c = 29
                 \/ nat_of_ascii c = 30 \/ nat_of_ascii c = 31)%nat) by lia.
    destruct E as [-> | [-> | [-> | ->]]]; auto. }
  assert (Hint : py_int (JStr (t ++ String c "")) = None).
  { unfold py_int, int_of_str. rewrite chars_append.
    change (chars (String c "")) with [c].
    assert (Hblank : Chars.is_int_space c = false)
      by (destruct Hcases as [-> | [-> | [-> | ->]]]; reflexivity).
    rewrite (lskip_snoc _ _ _ Hblank).
    replace (rskip Chars.is_int_space (lskip Chars.is_int_space (chars t) ++ [c]))
      with (lskip Chars.is_int_space (chars t) ++ [c]).
    2:{ unfold rskip. rewrite rev_app_distr. simpl. rewrite Hblank.
        simpl. rewrite rev_involutive. reflexivity. }
    apply literal_bad_end;
      destruct Hcases as [-> | [-> | [-> | ->]]]; reflexivity. }
  split; [destruct Hcases as [-> | [-> | [-> | ->]]]; reflexivity|].
  split; [exact Hint|]. unfold validate_salary. rewrite Hint. reflexivity.
Qed.

(** X4. A salary text that starts with a minus sign is never accepted,
    whatever follows, ["-0"] included. *)
Theorem X4_salary_minus_sign (s : string) :
  validate_salary (JStr ("-" ++ s)) = false.
Proof.
  assert (H : int_of_str ("-" ++ s)
              = option_map Z.opp
                  (parse_unsigned (rskip Chars.is_int_space (chars s)))).
  { unfold int_of_str.
    change (chars ("-" ++ s)) with ("-"%char :: chars s).
    rewrite lskip_fixed by reflexivity.
    rewrite rskip_cons by reflexivity. reflexivity. }
  unfold validate_salary, py_int. rewrite H.
  destruct (parse_unsigned (rskip Chars.is_int_space (chars s))) as [n|] eqn:E;
    cbn [option_map]; [|reflexivity].
  apply parse_unsigned_nonneg in E. apply Z.ltb_ge. lia.
Qed.

Lemma X2_salary_digit_string_witness :
  py_int (JStr "0042") = Some 42%Z /\ validate_salary (JStr "0042") = true.
Proof.
  assert (Hne : chars "0042" <> []) by discriminate.
  destruct (X2_salary_digit_string (chars "0042") Hne eq_refl) as [Hint Hval].
  split; [exact Hint|].
  apply Hval. split; [unfold int_max_str_digits; simpl; lia|].
  exists "4"%char. split; [simpl; auto | discriminate].
Defined.

Lemma X3_salary_ignores_blanks_witness :
  py_int (JStr ("  " ++ "12" ++ " ")) = py_int (JStr "12").
Proof.
  destruct (X3_salary_ignores_blanks "  " "12" " " eq_refl eq_refl) as [H _].
  exact H.
Defined.


(** ** The shape of a successful call *)

Ltac unchanged_not H :=
  injection H as <- <-; left; split; [reflexivity | discriminate].

Lemma create_employee_shape db user_id data new_id o db' :
  create_employee db user_id data new_id = (o, db') ->
  (db' = db /\ o <> message 201 "Employee Added") \/
  (o = message 201 "Employee Added" /\
   exists f n,
     read_fields data = Go f /\ fields_valid f = true /\
     find_one (same_email (f_email f) user_id) (employees db) = None /\
     py_int (f_salary f) = Some n /\ ((0 < n)%Z /\ int64 n = true) /\
     db' = set_employees db (employees db ++ [document new_id f n user_id])).
Proof.
  rewrite create_employee_unfold. intro H.
  destruct (read_fields data) as [f|o1] eqn:Hread.
  2:{ apply read_fields_stop in Hread as ->. unchanged_not H. }
  destruct (validate_fields f) as [[]|o1] eqn:Hval.
  2:{ apply validate_fields_stop in Hval as (_ & msg & -> & _).
      unchanged_not H. }
  apply validate_fields_go in Hval.
  destruct (find_one _ _) eqn:Hdup; simpl in H; [unchanged_not H|].
  destruct (int_salary_valid _ (fields_valid_salary _ Hval))
    as (n & _ & Hn & Hpos).
  rewrite Hn in H. destruct (int64 n) eqn:Hfit; [|unchanged_not H].
  injection H as <- <-. right. split; [reflexivity|].
  exists f, n. auto 8.
Qed.

Lemma update_employee_shape db user_id id data o db' :
  update_employee db user_id id data = (o, db') ->
  (db' = db /\ o <> message 200 "Updated") \/
  (o = message 200 "Updated" /\
   exists f n oid pre d post,
     read_fields data = Go f /\ fields_valid f = true /\
     ObjectId_of id = Go oid /\
     py_int (f_salary f) = Some n /\ ((0 < n)%Z /\ int64 n = true) /\
     find_one (other_with_email (f_email f) user_id oid) (employees db) = None /\
     employees db = pre ++ d :: post /\
     forallb (fun x => negb (owned oid user_id x)) pre = true /\
     owned oid user_id d = true /\
     db' = set_employees db (pre ++ set_fields f n d :: post)).
Proof.
  rewrite update_employee_unfold. intro H.
  destruct (read_fields data) as [f|o1] eqn:Hread.
  2:{ apply read_fields_stop in Hread as ->. unchanged_not H. }
  destruct (validate_fields f) as [[]|o1] eqn:Hval.
  2:{ apply validate_fields_stop in Hval as (_ & msg & -> & _).
      unchanged_not H. }
  apply validate_fields_go in Hval.
  destruct (ObjectId_of_cases id) as [[oid Hoid] | Hoid]; rewrite Hoid in H;
    [|unchanged_not H].
  destruct (find_one (other_with_email _ _ _) _) eqn:Hother; simpl in H;
    [unchanged_not H|].
  destruct (int_salary_valid _ (fields_valid_salary _ Hval))
    as (n & _ & Hn & Hpos).
  rewrite Hn in H. destruct (int64 n) eqn:Hfit; [|unchanged_not H].
  destruct (update_one_cases (owned oid user_id) (set_fields f n) (employees db))
    as [[Hnone _] | (pre & d & post & Hsplit & Hpre & Hd & Hsome & Hupd)].
  - rewrite Hnone in H. unchanged_not H.
  - rewrite Hsome, Hupd in H. injection H as <- <-. right.
    split; [reflexivity|]. exists f, n, oid, pre, d, post. auto 13.
Qed.

Lemma delete_employee_shape db user_id id o db' :
  delete_employee db user_id id = (o, db') ->
  (db' = db /\ o <> message 200 "Deleted") \/
  (o = message 200 "Deleted" /\
   exists oid pre d post,
     ObjectId_of id = Go oid /\
     employees db = pre ++ d :: post /\
     forallb (fun x => negb (owned oid user_id x)) pre = true /\
     owned oid user_id d = true /\
     db' = set_employees db (pre ++ post)).
Proof.
  rewrite delete_employee_unfold. intro H.
  destruct (ObjectId_of_cases id) as [[oid Hoid] | Hoid]; rewrite Hoid in H;
    [|unchanged_not H].
  destruct (delete_one_cases (owned oid user_id) (employees db))
    as [[Hnone _] | (pre & d & post & Hsplit & Hpre & Hd & Hsome & Hdel)].
  - rewrite Hnone in H. unchanged_not H.
  - rewrite Hsome, Hdel in H. injection H as <- <-. right.
    split; [reflexivity|]. exists oid, pre, d, post. auto 8.
Qed.

Lemma listed_set db coll user_id :
  listed (set_employees db coll) user_id = filter (created_by user_id) coll.
Proof. reflexivity. Qed.

Lemma created_by_other user_id e :
  e_createdBy e <> user_id -> created_by user_id e = false.
Proof. intro H. apply String.eqb_neq. exact H. Qed.

(** ** What a call does to the collection *)

(** X5. With a body whose text fields are strings, [create_employee]
    succeeds exactly when the fields pass validation, the salary as an
    integer fits the eight bytes of a BSON integer and no employee of
    the caller has the email, and answers "Email already exists" exactly
    when the fields pass validation and one has; employees of other users
    with the same email never count.  A valid salary above [2^63 - 1]
    with a free email raises [OverflowError] and stores nothing. *)
Theorem X5_create_succeeds_iff (db : DB) (user_id : string) (data : dict)
  (new_id : ObjectId) (f : fields) :
  read_fields data = Go f ->
  let mine_has_email :=
    exists e, In e (employees db) /\ e_createdBy e = user_id /\
              e_email e = f_email f in
  (fst (create_employee db user_id data new_id)
   = Resp 201 (JObj [("message", JStr "Employee Added")]) <->
   fields_valid f = true /\ salary_fits (f_salary f) = true /\
   ~ mine_has_email) /\
  (fst (create_employee db user_id data new_id)
   = Resp 400 (JObj [("error", JStr "Email already exists")]) <->
   fields_valid f = true /\ mine_has_email) /\
  (fields_valid f = true -> salary_fits (f_salary f) = false ->
   ~ mine_has_email ->
   create_employee db user_id data new_id = (Raise OverflowError, db)).
Proof.
  intros Hread mine_has_email.
  assert (Hfound :
            found (find_one (same_email (f_email f) user_id) (employees db))
            = true <-> mine_has_email).
  { rewrite found_find_one_iff. unfold mine_has_email.
    split; intros (e & He & H); exists e.
    - apply same_email_iff in H. tauto.
    - split; [assumption|]. apply same_email_iff. tauto. }
  rewrite create_employee_unfold, Hread. unfold salary_fits.
  change (message 201 "Employee Added")
    with (Resp 201 (JObj [("message", JStr "Employee Added")])).
  change (error 400 "Email already exists")
    with (Resp 400 (JObj [("error", JStr "Email already exists")])).
  destruct (validate_fields f) as [[]|o] eqn:Hval.
  - apply validate_fields_go in Hval.
    destruct (int_salary_valid _ (fields_valid_salary _ Hval))
      as (n & _ & -> & _).
    destruct (found _) eqn:E; cbn [fst].
    + split; [split; [discriminate|] | split; [tauto|]].
      * intros (_ & _ & Hno). exfalso. apply Hno, Hfound. reflexivity.
      * intros _ _ Hno. exfalso. apply Hno, Hfound. reflexivity.
    + assert (Hno : ~ mine_has_email).
      { intro H. apply Hfound in H. discriminate. }
      destruct (int64 n) eqn:Hfit; cbn [fst].
      * split; [tauto|]. split; [|discriminate].
        split; [discriminate | tauto].
      * split; [|split; [|reflexivity]].
        -- split; [discriminate|]. intros (_ & H & _). discriminate.
        -- split; [discriminate | tauto].
  - apply validate_fields_stop in Hval as (Hbad & msg & -> & Hmsg). cbn [fst].
    split; [|split]; [split; [|intros [H _]; congruence] ..
                     | intros H; congruence].
    + discriminate.
    + intros [= ->]. simpl in Hmsg.
      repeat (destruct Hmsg as [Hmsg | Hmsg]; [discriminate Hmsg|]).
      destruct Hmsg.
Qed.

(** X6. A call of one user never changes what another user lists: after
    any create, update or delete, successful or not, [get_employees]
    answers every other user as before. *)
Theorem X6_other_users_list_unchanged (db : DB) (c : call) (other : string) :
  caller c <> other ->
  listed (snd (perform db c)) other = listed db other /\
  get_employees (snd (perform db c)) other = get_employees db other.
Proof.
  intro Hne.
  assert (H : listed (snd (perform db c)) other = listed db other).
  { destruct c as [u data new_id | u id data | u id]; simpl in Hne; simpl perform.
    - destruct (create_employee db u data new_id) as [o db'] eqn:E.
      apply create_employee_cases in E as [-> | (f & n & _ & ->)];
        [reflexivity|].
      simpl snd. rewrite listed_set. unfold listed, find_all.
      rewrite filter_app. simpl.
      rewrite created_by_other by exact Hne. apply app_nil_r.
    - destruct (update_employee db u id data) as [o db'] eqn:E.
      apply update_employee_cases in E
        as [-> | (f & n & oid & pre & d & post & _ & Hsplit & Hd & ->)];
        [reflexivity|].
      apply owned_iff in Hd as [_ Hby].
      simpl snd. rewrite listed_set. unfold listed, find_all.
      rewrite Hsplit, !filter_app. simpl.
      rewrite !created_by_other by (simpl; congruence). reflexivity.
    - destruct (delete_employee db u id) as [o db'] eqn:E.
      apply delete_employee_shape in E
        as [[-> _] | (_ & oid & pre & d & post & _ & Hsplit & _ & Hd & ->)];
        [reflexivity|].
      apply owned_iff in Hd as [_ Hby].
      simpl snd. rewrite listed_set. unfold listed, find_all.
      rewrite Hsplit, !filter_app. simpl.
      rewrite created_by_other by congruence. reflexivity. }
  split; [exact H|]. unfold get_employees. fold (listed (snd (perform db c)) other).
  fold (listed db other). rewrite H. reflexivity.
Qed.

(** X7. [update_employee] never adds or removes a document and never
    changes the identifier or the owner of one: the identifiers and the
    [createdBy] values of the collection, in order, are the same after
    any update, and [users] is not touched. *)
Theorem X7_update_keeps_identity (db : DB) (user_id id : string) (data : dict) :
  let db' := snd (update_employee db user_id id data) in
  map e_id (employees db') = map e_id (employees db) /\
  map e_createdBy (employees db') = map e_createdBy (employees db) /\
  List.length (employees db') = List.length (employees db) /\
  users db' = users db.
Proof.
  intro db'. unfold db'.
  destruct (update_employee db user_id id data) as [o db1] eqn:E.
  apply update_employee_cases in E
    as [-> | (f & n & oid & pre & d & post & _ & Hsplit & _ & ->)];
    [auto|].
  simpl. rewrite Hsplit, !map_app, !length_app. simpl. auto.
Qed.

Lemma filter_all {A : Type} (p : A -> bool) (l : list A) :
  (forall x, In x l -> p x = true) -> filter p l = l.
Proof.
  induction l as [|x l IH]; simpl; intro H; [reflexivity|].
  rewrite (H x) by auto. f_equal. apply IH. auto.
Qed.

Section SplitCollection.
Context {A : Type} (filter : A -> bool) (set : A -> A).

Lemma find_one_split pre d post :
  forallb (fun x => negb (filter x)) pre = true -> filter d = true ->
  find_one filter (pre ++ d :: post) = Some d.
Proof.
  unfold find_one. induction pre as [|x pre IH]; simpl; intros Hpre Hd.
  - rewrite Hd. reflexivity.
  - apply andb_true_iff in Hpre as [Hx Hpre].
    apply negb_true_iff in Hx. rewrite Hx. auto.
Qed.

Lemma update_one_split pre d post :
  forallb (fun x => negb (filter x)) pre = true -> filter d = true ->
  update_one filter set (pre ++ d :: post) = (1%nat, pre ++ set d :: post).
Proof.
  induction pre as [|x pre IH]; simpl; intros Hpre Hd.
  - rewrite Hd. reflexivity.
  - apply andb_true_iff in Hpre as [Hx Hpre].
    apply negb_true_iff in Hx. rewrite Hx, (IH Hpre Hd). reflexivity.
Qed.
End SplitCollection.

(** X8. A successful delete removes the document with that identifier
    and nothing else, where identifiers are distinct: the collection
    becomes the old one without that identifier, one document shorter,
    and the same delete asked again answers 403 and changes nothing. *)
Theorem X8_delete_removes_one (db db' : DB) (user_id id : string)
  (oid : ObjectId) :
  ids_wf db -> ObjectId_of id = Go oid ->
  delete_employee db user_id id = (message 200 "Deleted", db') ->
  employees db'
  = filter (fun e => negb (String.eqb (e_id e) oid)) (employees db) /\
  S (List.length (employees db')) = List.length (employees db) /\
  users db' = users db /\
  delete_employee db' user_id id = (error 403 "Not authorized", db').
Proof.
  intros [Hnd _] Hoid H.
  apply delete_employee_shape in H
    as [[_ Hne] | (_ & oid' & pre & d & post & Hoid' & Hsplit & _ & Hd & ->)];
    [congruence|].
  assert (oid' = oid) by congruence. subst oid'.
  apply owned_iff in Hd as [Hid Hby].
  assert (Hrest : forall x, In x (pre ++ post) -> e_id x <> oid).
  { intros x Hx. rewrite <- Hid. eapply NoDup_middle_neq; [|exact Hx].
    rewrite <- Hsplit. exact Hnd. }
  assert (Hkeep : forall x, In x (pre ++ post) ->
                            negb (String.eqb (e_id x) oid) = true).
  { intros x Hx. apply negb_true_iff, String.eqb_neq, Hrest, Hx. }
  split; [|split; [|split]].
  - simpl. rewrite Hsplit, filter_app. simpl.
    rewrite Hid, String.eqb_refl. simpl. rewrite <- filter_app.
    symmetry. apply filter_all, Hkeep.
  - simpl. rewrite Hsplit, !length_app. simpl. lia.
  - reflexivity.
  - rewrite delete_employee_unfold, Hoid. simpl employees.
    assert (Hnone : find_one (owned oid user_id) (pre ++ post) = None).
    { apply find_one_none. intros x Hx.
      destruct (owned oid user_id x) eqn:E; [exfalso | reflexivity].
      apply owned_iff in E as [E _]. exact (Hrest x Hx E). }
    rewrite Hnone. reflexivity.
Qed.

Lemma read_fields_same_on data data' :
  same_on employee_keys data data' -> read_fields data = read_fields data'.
Proof.
  intro H. unfold read_fields, get_stripped, get_default, get.
  rewrite (H "name"), (H "email"), (H "department"), (H "designation"),
    (H "salary") by (simpl; auto 6).
  reflexivity.
Qed.

(** X9. The employee handlers read five keys of the body and nothing
    else: two bodies that agree on [name], [email], [department],
    [designation] and [salary] get the same answer and leave the same
    store, so a [createdBy] or [_id] sent by the client changes
    nothing. *)
Theorem X9_only_five_keys (db : DB) (user_id id : string)
  (new_id : ObjectId) (data data' : dict) :
  same_on employee_keys data data' ->
  create_employee db user_id data new_id
  = create_employee db user_id data' new_id /\
  update_employee db user_id id data
  = update_employee db user_id id data'.
Proof.
  intro H. apply read_fields_same_on in H.
  rewrite !create_employee_unfold, !update_employee_unfold, H. auto.
Qed.

(** ** Every store the handlers build *)

Lemma store_ok_users db us : store_ok db -> store_ok (set_users db us).
Proof. intro H. exact H. Qed.

Lemma perform_keeps_store_ok db c :
  store_ok db -> fresh_for db c -> store_ok (snd (perform db c)).
Proof.
  intros Hok Hfresh.
  destruct c as [u data new_id | u id data | u id]; simpl in *.
  - destruct (create_employee db u data new_id) as [o db'] eqn:E.
    destruct Hfresh as [Hcan Hnew].
    eapply create_employee_keeps_store_ok; eassumption.
  - destruct (update_employee db u id data) as [o db'] eqn:E.
    eapply update_employee_keeps_store_ok; eassumption.
  - destruct (delete_employee db u id) as [o db'] eqn:E.
    eapply delete_employee_keeps_store_ok; eassumption.
Qed.

(** X11. In every store that the handlers build from an empty
    collection, where each insert gets an identifier of its own, the
    identifiers are distinct 24-digit lower-case hexadecimal strings and no
    user has two employees with the same email. *)
Theorem X11_reachable_store_ok (db : DB) :
  reachable db ->
  NoDup (map e_id (employees db)) /\
  (forall e, In e (employees db) -> canonical (e_id e) = true) /\
  (forall e1 e2,
      In e1 (employees db) -> In e2 (employees db) ->
      e_createdBy e1 = e_createdBy e2 -> e_email e1 = e_email e2 ->
      e1 = e2).
Proof.
  intro H.
  assert (Hok : store_ok db).
  { induction H as [us | db us _ IH | db c _ IH Hfresh].
    - apply empty_store_ok.
    - apply store_ok_users, IH.
    - apply perform_keeps_store_ok; assumption. }
  destruct Hok as [[Hnd Hcan] Huniq]. split; [exact Hnd|]. split.
  - apply Forall_forall. exact Hcan.
  - intros e1 e2 H1 H2 Hby Hemail.
    apply (same_id_same_doc db); [split; assumption | assumption | assumption|].
    apply Huniq; assumption.
Qed.

Lemma py_strip_trimmed v s : py_strip v = Go s -> strip s = s.
Proof.
  destruct v; simpl; try discriminate.
  intros [= <-]. apply strip_idempotent.
Qed.

Lemma read_fields_trimmed data f :
  read_fields data = Go f ->
  strip (f_name f) = f_name f /\ strip (f_email f) = f_email f /\
  strip (f_department f) = f_department f /\
  strip (f_designation f) = f_designation f.
Proof.
  unfold read_fields, get_stripped.
  destruct (py_strip (get_default data "name" (JStr ""))) eqn:E1;
    simpl; [|discriminate].
  destruct (py_strip (get_default data "email" (JStr ""))) eqn:E2;
    simpl; [|discriminate].
  destruct (py_strip (get_default data "department" (JStr ""))) eqn:E3;
    simpl; [|discriminate].
  destruct (py_strip (get_default data "designation" (JStr ""))) eqn:E4;
    simpl; [|discriminate].
  intros [= <-]. simpl.
  repeat split; eapply py_strip_trimmed; eassumption.
Qed.

Lemma document_valid_built id f n user_id data :
  read_fields data = Go f -> fields_valid f = true -> (0 < n)%Z ->
  document_valid (document id f n user_id) = true /\
  forall d, document_valid (set_fields f n d) = true.
Proof.
  intros Hread Hval Hpos.
  apply read_fields_trimmed in Hread as (H1 & H2 & H3 & H4).
  unfold fields_valid in Hval. rewrite !andb_true_iff in Hval.
  destruct Hval as ((((Hn & He) & Hd) & Hg) & _).
  apply Z.ltb_lt in Hpos.
  assert (Hall : forall d, document_valid (set_fields f n d) = true).
  { intro d. unfold document_valid, set_fields. simpl.
    rewrite Hn, He, Hd, Hg, Hpos, H1, H2, H3, H4, !String.eqb_refl.
    reflexivity. }
  split; [|exact Hall].
  unfold document_valid, document. simpl.
  rewrite Hn, He, Hd, Hg, Hpos, H1, H2, H3, H4, !String.eqb_refl.
  reflexivity.
Qed.

Lemma perform_keeps_documents_valid db c :
  Forall (fun e => document_valid e = true) (employees db) ->
  Forall (fun e => document_valid e = true) (employees (snd (perform db c))).
Proof.
  intro Hall.
  destruct c as [u data new_id | u id data | u id]; simpl perform.
  - destruct (create_employee db u data new_id) as [o db'] eqn:E.
    apply create_employee_shape in E
      as [[-> _] | (_ & f & n & Hread & Hval & _ & _ & [Hpos _] & ->)];
      [exact Hall|].
    simpl. apply Forall_app. split; [exact Hall|].
    constructor; [|constructor].
    apply (document_valid_built new_id f n u data Hread Hval Hpos).
  - destruct (update_employee db u id data) as [o db'] eqn:E.
    apply update_employee_shape in E
      as [[-> _] | (_ & f & n & oid & pre & d & post & Hread & Hval & _ & _
                    & [Hpos _] & _ & Hsplit & _ & _ & ->)];
      [exact Hall|].
    simpl. rewrite Hsplit in Hall. apply Forall_app in Hall as [Hpre Hpost].
    inversion Hpost; subst. apply Forall_app. split; [exact Hpre|].
    constructor; [|assumption].
    apply (document_valid_built oid f n u data Hread Hval Hpos).
  - destruct (delete_employee db u id) as [o db'] eqn:E.
    apply delete_employee_shape in E
      as [[-> _] | (_ & oid & pre & d & post & _ & Hsplit & _ & _ & ->)];
      [exact Hall|].
    simpl. rewrite Hsplit in Hall. apply Forall_app in Hall as [Hpre Hpost].
    inversion Hpost; subst. apply Forall_app. split; assumption.
Qed.

(** X12. Every document in a store that the handlers build would pass
    the validation block again: name, department and designation are 2 to
    50 letters or spaces, the email has the address format, the salary is a
    positive integer, and the four texts carry no blank at either end. *)
Theorem X12_reachable_documents_valid (db : DB) (e : employee) :
  reachable db -> In e (employees db) ->
  validate_name (e_name e) = true /\
  validate_email_format (e_email e) = true /\
  validate_text_field (e_department e) = true /\
  validate_text_field (e_designation e) = true /\
  (0 < e_salary e)%Z /\
  strip (e_name e) = e_name e /\ strip (e_email e) = e_email e /\
  strip (e_department e) = e_department e /\
  strip (e_designation e) = e_designation e.
Proof.
  intro H.
  assert (Hall : Forall (fun e => document_valid e = true) (employees db)).
  { induction H as [us | db us _ IH | db c _ IH Hfresh].
    - constructor.
    - exact IH.
    - apply perform_keeps_documents_valid, IH. }
  intro He.
  rewrite Forall_forall in Hall. specialize (Hall e He).
  unfold document_valid in Hall. rewrite !andb_true_iff in Hall.
  rewrite Z.ltb_lt, !String.eqb_eq in Hall. tauto.
Qed.

(** ** Calls in sequence *)

(** X13. A successful update asked a second time succeeds again and
    leaves the store exactly as the first left it. *)
Theorem X13_update_twice (db db' : DB) (user_id id : string) (data : dict) :
  update_employee db user_id id data = (message 200 "Updated", db') ->
  update_employee db' user_id id data = (message 200 "Updated", db').
Proof.
  intro H.
  apply update_employee_shape in H
    as [[_ Hne] | (_ & f & n & oid & pre & d & post & Hread & Hval & Hoid
                   & Hn & [_ Hfit] & Hother & Hsplit & Hpre & Hd & ->)];
    [congruence|].
  assert (Hd' : owned oid user_id (set_fields f n d) = true).
  { apply owned_iff in Hd. apply owned_iff. exact Hd. }
  assert (Hother' :
            find_one (other_with_email (f_email f) user_id oid)
              (pre ++ set_fields f n d :: post) = None).
  { apply find_one_none. intros x Hx. apply in_middle in Hx as [-> | Hx].
    - unfold other_with_email. apply owned_iff in Hd as [Hid _]. simpl.
      rewrite Hid, String.eqb_refl. apply andb_false_r.
    - apply (proj1 (find_one_none _ _) Hother).
      rewrite Hsplit. apply in_middle. auto. }
  apply validate_fields_go in Hval.
  rewrite update_employee_unfold, Hread, Hval, Hoid, Hn, Hfit.
  rewrite employees_set, Hother'. simpl found. cbv iota.
  rewrite (find_one_split _ pre _ post Hpre Hd').
  rewrite (update_one_split _ (set_fields f n) pre _ post Hpre Hd').
  reflexivity.
Qed.

(** X14. After a successful create, a second create by the same user
    with the same email, after stripping, and otherwise valid fields is
    refused with "Email already exists" and changes nothing. *)
Theorem X14_create_twice (db db' : DB) (user_id : string)
  (data data' : dict) (new_id new_id' : ObjectId) (f f' : fields) :
  create_employee db user_id data new_id = (message 201 "Employee Added", db') ->
  read_fields data = Go f -> read_fields data' = Go f' ->
  f_email f' = f_email f -> fields_valid f' = true ->
  create_employee db' user_id data' new_id'
  = (error 400 "Email already exists", db').
Proof.
  intros H Hread Hread' Hemail Hval'.
  apply create_employee_success in H as (f0 & n & Hread0 & _ & _ & _ & _ & ->).
  assert (f0 = f) by congruence. subst f0.
  apply validate_fields_go in Hval'.
  rewrite create_employee_unfold, Hread', Hval', employees_set.
  assert (Hfound :
            found (find_one (same_email (f_email f') user_id)
                     (employees db ++ [document new_id f n user_id])) = true).
  { apply found_find_one_iff. exists (document new_id f n user_id).
    split; [apply in_or_app; right; left; reflexivity|].
    apply same_email_iff. simpl. auto. }
  unfold document in Hfound. rewrite Hfound. reflexivity.
Qed.

(** ** Accounts *)

Lemma truthy_str s : truthy (JStr s) = true <-> s <> "".
Proof. simpl. rewrite negb_true_iff. apply String.eqb_neq. Qed.

Lemma perform_keeps_users db c : users (snd (perform db c)) = users db.
Proof.
  destruct c as [u data new_id | u id data | u id]; simpl perform.
  - destruct (create_employee db u data new_id) as [o db'] eqn:E.
    apply create_employee_cases in E as [-> | (f & n & _ & ->)]; reflexivity.
  - destruct (update_employee db u id data) as [o db'] eqn:E.
    apply update_employee_cases in E
      as [-> | (f & n & oid & pre & d & post & _ & _ & _ & ->)]; reflexivity.
  - destruct (delete_employee db u id) as [o db'] eqn:E.
    apply delete_employee_cases in E as [-> | (pre & d & post & _ & ->)];
      reflexivity.
Qed.

Section Accounts.
Variable hashpw : bytes -> bytes -> option bytes.
Variable checkpw : bytes -> bytes -> bool.
Variable create_access_token : string -> string.
Variable query_operator : dict -> option (string -> bool).

Lemma register_shape db data salt new_id o db' :
  register hashpw db data salt new_id = (o, db') ->
  (db' = db /\ o <> message 201 "Registered Successfully") \/
  (o = message 201 "Registered Successfully" /\
   exists e p h,
     get data "email" = JStr e /\ get data "password" = JStr p /\
     truthy (get data "name") = true /\
     validate_email_format e = true /\ (6 <= String.length p)%nat /\
     find_one (fun u => String.eqb (u_email u) e) (users db) = None /\
     hashpw (encode p) salt = Some h /\
     bson_error (get data "name") = None /\
     db' = set_users db (users db ++ [User new_id (get data "name") e h])).
Proof.
  rewrite register_unfold. cbv zeta. intro H.
  destruct (truthy (get data "name")) eqn:Hname; cbn [andb negb] in H;
    [|unchanged_not H].
  destruct (truthy (get data "email") && truthy (get data "password"));
    cbn [negb] in H; [|unchanged_not H].
  destruct (get data "email") as [ | | | |e| | ]; try (unchanged_not H).
  destruct (validate_email_format e) eqn:He; cbn [negb] in H;
    [|unchanged_not H].
  destruct (get data "password") as [ | | | |p| | ] eqn:Hp; cbn [py_len] in H;
    try (unchanged_not H).
  - destruct (6 <=? String.length p)%nat eqn:Hlen; cbn [negb] in H;
      [|unchanged_not H].
    destruct (find_one _ _) eqn:Hfind; cbn [found] in H;
      [unchanged_not H|].
    destruct (hashpw (encode p) salt) as [h|] eqn:Hhash; [|unchanged_not H].
    destruct (bson_error (get data "name")) eqn:Hbson; [unchanged_not H|].
    injection H as <- <-. right. split; [reflexivity|].
    exists e, p, h. apply Nat.leb_le in Hlen. auto 10.
  - destruct (negb _); [unchanged_not H|].
    destruct (found _); unchanged_not H.
  - destruct (negb _); [unchanged_not H|].
    destruct (found _); unchanged_not H.
Qed.

(** X15. Register, then log in: when bcrypt verifies a password against
    its own hash, a login with the body of a successful registration
    succeeds on the store the registration left, with the token issued
    for the identifier of the new user and with the registered name. *)
Theorem X15_register_then_login (db db' : DB) (data : dict) (salt : bytes)
  (new_id : ObjectId) :
  (forall password s h,
     hashpw password s = Some h -> checkpw password h = true) ->
  register hashpw db data salt new_id
  = (message 201 "Registered Successfully", db') ->
  login checkpw create_access_token query_operator db' data
  = Resp 200 (JObj [("token", JStr (create_access_token new_id));
                    ("name", get data "name")]).
Proof.
  intros Hbcrypt H.
  apply register_shape in H
    as [[_ Hne] | (_ & e & p & h & He & Hp & _ & Hvalid & Hlen & Hnone
                   & Hhash & _ & ->)];
    [congruence|].
  rewrite login_unfold. cbv zeta. rewrite He, Hp.
  assert (Hte : truthy (JStr e) = true).
  { apply truthy_str. intros ->. discriminate Hvalid. }
  assert (Htp : truthy (JStr p) = true).
  { apply truthy_str. intros ->. simpl in Hlen. lia. }
  rewrite Hte, Htp. cbn [andb negb email_filter].
  simpl users.
  rewrite (find_one_last _ _ _ Hnone). simpl u_email.
  rewrite String.eqb_refl. simpl. rewrite (Hbcrypt _ _ _ Hhash). reflexivity.
Qed.

(** X16. After a successful registration, any later registration with
    the same email is refused with "Email already exists" and changes
    nothing, whatever name and password it brings, as long as both are
    present and the password is long enough to reach the check. *)
Theorem X16_register_twice (db db' : DB) (data data' : dict)
  (salt salt' : bytes) (new_id new_id' : ObjectId) (p' : string) :
  register hashpw db data salt new_id
  = (message 201 "Registered Successfully", db') ->
  get data' "email" = get data "email" ->
  truthy (get data' "name") = true ->
  get data' "password" = JStr p' -> (6 <= String.length p')%nat ->
  register hashpw db' data' salt' new_id'
  = (error 400 "Email already exists", db').
Proof.
  intros H Hemail Hname Hp' Hlen'.
  apply register_shape in H
    as [[_ Hne] | (_ & e & p & h & He & Hp & _ & Hvalid & Hlen & Hnone
                   & _ & _ & ->)];
    [congruence|].
  rewrite register_unfold. cbv zeta. rewrite Hemail, He, Hp', Hname.
  assert (Hte : truthy (JStr e) = true).
  { apply truthy_str. intros ->. discriminate Hvalid. }
  assert (Htp : truthy (JStr p') = true).
  { apply truthy_str. intros ->. simpl in Hlen'. lia. }
  rewrite Hte, Htp, Hvalid. cbn [andb negb py_len].
  apply Nat.leb_le in Hlen'. rewrite Hlen'. cbn [negb].
  simpl users. rewrite (find_one_last _ _ _ Hnone). simpl u_email.
  rewrite String.eqb_refl. reflexivity.
Qed.

(** X17. [register] never touches [employees] and never removes or
    rewrites a user: it leaves [users] as it was or appends one document,
    which carries the new identifier, the name as sent and an email of the
    address format that no earlier user has; so emails that were distinct
    stay distinct. *)
Theorem X17_register_effects (db : DB) (data : dict) (salt : bytes)
  (new_id : ObjectId) :
  let db' := snd (register hashpw db data salt new_id) in
  employees db' = employees db /\
  (users db' = users db \/
   exists u,
     users db' = users db ++ [u] /\
     u_id u = new_id /\ u_name u = get data "name" /\
     JStr (u_email u) = get data "email" /\
     validate_email_format (u_email u) = true /\
     ~ In (u_email u) (map u_email (users db))) /\
  (NoDup (map u_email (users db)) -> NoDup (map u_email (users db'))).
Proof.
  intro db'. unfold db'.
  destruct (register hashpw db data salt new_id) as [o db1] eqn:E.
  apply register_shape in E
    as [[-> _] | (_ & e & p & h & He & Hp & _ & Hvalid & _ & Hnone
                  & _ & _ & ->)];
    [simpl; auto|].
  assert (Hnew : ~ In e (map u_email (users db))).
  { intro Hin. apply in_map_iff in Hin as (u & Hu & Hin).
    pose proof (proj1 (find_one_none _ _) Hnone u Hin) as H.
    simpl in H. rewrite Hu, String.eqb_refl in H. discriminate. }
  simpl. split; [reflexivity|]. split.
  - right. eexists. split; [reflexivity|]. simpl. auto 6.
  - intro Hnd. rewrite map_app. simpl.
    apply NoDup_app; [assumption | repeat constructor; simpl; tauto|].
    intros x Hx [<- | []]. contradiction.
Qed.

(** X19. [login] answers 200 only for a verified password: some stored
    user matches the email filter, the password is a string that bcrypt
    verifies against that user's stored hash, and the body is the token
    issued for that user's identifier with that user's name; when the
    email is a string, the user is one stored under exactly that email. *)
Theorem X19_login_only_verified (db : DB) (data : dict) (body : json) :
  login checkpw create_access_token query_operator db data = Resp 200 body ->
  exists u p,
    In u (users db) /\
    get data "password" = JStr p /\
    checkpw (encode p) (u_password u) = true /\
    body = JObj [("token", JStr (create_access_token (u_id u)));
                 ("name", u_name u)] /\
    (forall e, get data "email" = JStr e -> u_email u = e).
Proof.
  rewrite login_unfold. cbv zeta.
  destruct (negb _); [discriminate|].
  destruct (email_filter query_operator (get data "email")) as [filter|o] eqn:Hf.
  2:{ unfold email_filter in Hf.
      destruct (get data "email") as [ | | | | | |q]; try discriminate.
      destruct (query_operator q); [discriminate|].
      injection Hf as <-. discriminate. }
  destruct (find_one filter (users db)) as [u|] eqn:Hfind; [|discriminate].
  apply find_one_some in Hfind as [Hin Hmatch].
  destruct (get data "password") as [ | | | |p| | ]; try discriminate.
  destruct (checkpw (encode p) (u_password u)) eqn:Hcheck; [|discriminate].
  intros [= <-]. exists u, p. repeat split; try assumption.
  intros e He. rewrite He in Hf. injection Hf as <-.
  apply String.eqb_eq. exact Hmatch.
Qed.

End Accounts.

(** X18. The employee handlers never touch [users]: after any sequence
    of creates, updates and deletes, successful or not, the accounts are
    the same. *)
Theorem X18_calls_keep_users (db : DB) (l : list call) :
  users (fold_left (fun d c => snd (perform d c)) l db) = users db.
Proof.
  revert db. induction l as [|c l IH]; intro db; simpl; [reflexivity|].
  rewrite IH. apply perform_keeps_users.
Qed.

(** ** The further properties on the example store *)

Lemma demo_bcrypt_verifies password salt h :
  demo_hashpw password salt = Some h -> demo_checkpw password h = true.
Proof.
  unfold demo_checkpw, demo_hashpw. intros [= <-].
  rewrite length_app, Nat.add_sub, firstn_app, Nat.sub_diag, firstn_all.
  simpl. rewrite app_nil_r.
  destruct (list_eq_dec Byte.byte_eq_dec (salt ++ password) (salt ++ password));
    [reflexivity | congruence].
Qed.

Lemma X5_create_succeeds_iff_witness :
  read_fields cy_body
  = Go (stripped " Cy Dee " "cydee1@gmail.com" "Ops" "Lead " (JStr "1200")) /\
  fst (create_employee demo_db alice cy_body cy_id)
  = Resp 201 (JObj [("message", JStr "Employee Added")]).
Proof.
  split; [reflexivity|].
  destruct (X5_create_succeeds_iff demo_db alice cy_body cy_id _ eq_refl)
    as [Hok _].
  apply Hok. split; [reflexivity|]. split; [reflexivity|].
  intros (e & He & _ & Hemail). simpl in He.
  destruct He as [<- | [<- | [<- | []]]]; discriminate Hemail.
Defined.

Lemma X6_other_users_list_unchanged_witness :
  caller (Create alice cy_body cy_id) <> bob /\
  listed (snd (perform demo_db (Create alice cy_body cy_id))) bob
  = listed demo_db bob.
Proof.
  assert (Hne : caller (Create alice cy_body cy_id) <> bob) by discriminate.
  split; [exact Hne|].
  apply (X6_other_users_list_unchanged demo_db _ bob Hne).
Defined.

Lemma X8_delete_removes_one_witness :
  delete_employee demo_db bob (e_id ray)
  = (message 200 "Deleted", set_employees demo_db [ann; kim]) /\
  delete_employee (set_employees demo_db [ann; kim]) bob (e_id ray)
  = (error 403 "Not authorized", set_employees demo_db [ann; kim]).
Proof.
  assert (H : delete_employee demo_db bob (e_id ray)
              = (message 200 "Deleted", set_employees demo_db [ann; kim]))
    by reflexivity.
  split; [exact H|].
  apply (X8_delete_removes_one demo_db _ bob (e_id ray) (e_id ray)
           demo_db_ids_wf eq_refl H).
Defined.

Lemma X9_only_five_keys_witness :
  create_employee demo_db alice cy_body cy_id
  = create_employee demo_db alice
      (("createdBy", JStr bob) :: ("_id", JStr (e_id ray)) :: cy_body) cy_id.
Proof.
  apply (X9_only_five_keys demo_db alice (e_id ann) cy_id).
  intros k Hk. simpl in Hk.
  destruct Hk as [<- | [<- | [<- | [<- | [<- | []]]]]]; reflexivity.
Defined.

Lemma X11_reachable_store_ok_witness :
  reachable (snd (perform (Db [] []) (Create alice cy_body cy_id))) /\
  NoDup (map e_id
           (employees (snd (perform (Db [] []) (Create alice cy_body cy_id))))).
Proof.
  assert (H : reachable (snd (perform (Db [] []) (Create alice cy_body cy_id)))).
  { apply reach_call; [apply reach_empty|].
    split; [reflexivity | intros []]. }
  split; [exact H|].
  apply (X11_reachable_store_ok _ H).
Defined.

Lemma X12_reachable_documents_valid_witness :
  validate_name "Cy Dee" = true /\ strip "Cy Dee" = "Cy Dee".
Proof.
  assert (H : reachable (snd (perform (Db [] []) (Create alice cy_body cy_id)))).
  { apply reach_call; [apply reach_empty|].
    split; [reflexivity | intros []]. }
  assert (Hin : In (Employee cy_id "Cy Dee" "cydee1@gmail.com" "Ops" "Lead"
                      1200 alice)
                  (employees
                     (snd (perform (Db [] []) (Create alice cy_body cy_id)))))
    by (left; reflexivity).
  destruct (X12_reachable_documents_valid _ _ H Hin)
    as (Hname & _ & _ & _ & _ & Hstrip & _).
  split; [exact Hname | exact Hstrip].
Defined.

Lemma X13_update_twice_witness :
  update_employee
    (set_employees demo_db
       [ann; Employee (e_id ray) "Bob Ray" "bobray@gmail.com" "Sales" "Lead"
               4200 bob; kim])
    bob (e_id ray)
    (employee_body "Bob Ray" "bobray@gmail.com" "Sales" "Lead" (JInt 4200))
  = (message 200 "Updated",
     set_employees demo_db
       [ann; Employee (e_id ray) "Bob Ray" "bobray@gmail.com" "Sales" "Lead"
               4200 bob; kim]).
Proof.
  apply (X13_update_twice demo_db). reflexivity.
Defined.

Lemma X14_create_twice_witness :
  create_employee
    (set_employees demo_db
       (employees demo_db ++
        [Employee cy_id "Cy Dee" "cydee1@gmail.com" "Ops" "Lead" 1200 alice]))
    alice
    (employee_body "Cy Two" " cydee1@gmail.com" "Ops" "Head" (JInt 9))
    "65a000000000000000000007"
  = (error 400 "Email already exists",
     set_employees demo_db
       (employees demo_db ++
        [Employee cy_id "Cy Dee" "cydee1@gmail.com" "Ops" "Lead" 1200 alice])).
Proof.
  apply (X14_create_twice demo_db _ alice cy_body
           (employee_body "Cy Two" " cydee1@gmail.com" "Ops" "Head" (JInt 9))
           cy_id "65a000000000000000000007"
           (stripped " Cy Dee " "cydee1@gmail.com" "Ops" "Lead " (JStr "1200"))
           (stripped "Cy Two" " cydee1@gmail.com" "Ops" "Head" (JInt 9)));
    reflexivity.
Defined.

Lemma X15_register_then_login_witness :
  login demo_checkpw demo_token demo_operator
    (set_users demo_db
       (users demo_db ++
        [User cy_id (JStr "Bob") "bobray@gmail.com"
           (demo_salt ++ encode "hunter2")]))
    register_body
  = Resp 200 (JObj [("token", JStr (demo_token cy_id)); ("name", JStr "Bob")]).
Proof.
  apply (X15_register_then_login demo_hashpw demo_checkpw demo_token
           demo_operator demo_db _ register_body demo_salt cy_id
           demo_bcrypt_verifies).
  reflexivity.
Defined.

Lemma X16_register_twice_witness :
  register demo_hashpw
    (set_users demo_db
       (users demo_db ++
        [User cy_id (JStr "Bob") "bobray@gmail.com"
           (demo_salt ++ encode "hunter2")]))
    [("name", JStr "Rob"); ("email", JStr "bobray@gmail.com");
     ("password", JStr "another1")] demo_salt "65a000000000000000000007"
  = (error 400 "Email already exists",
     set_users demo_db
       (users demo_db ++
        [User cy_id (JStr "Bob") "bobray@gmail.com"
           (demo_salt ++ encode "hunter2")])).
Proof.
  apply (X16_register_twice demo_hashpw demo_db _ register_body _
           demo_salt demo_salt cy_id "65a000000000000000000007" "another1");
    try reflexivity.
  simpl; lia.
Defined.

Lemma X19_login_only_verified_witness :
  exists u p,
    In u (users demo_db) /\
    get [("email", JStr "alice1@gmail.com"); ("password", JStr "secret1")]
      "password" = JStr p /\
    demo_checkpw (encode p) (u_password u) = true /\
    JObj [("token", JStr (demo_token alice)); ("name", JStr "Alice")]
    = JObj [("token", JStr (demo_token (u_id u))); ("name", u_name u)] /\
    (forall e,
        get [("email", JStr "alice1@gmail.com"); ("password", JStr "secret1")]
          "email" = JStr e ->
        u_email u = e).
Proof.
  apply (X19_login_only_verified demo_checkpw demo_token demo_operator demo_db).
  vm_compute. reflexivity.
Defined.
